(** * Idempotency keys for payment transactions

    A shallow embedding of [idempotency_key.py]: the [ClientType] enumeration,
    the [PaymentIdentikit] class (normalisation and validation in [__init__],
    [generate_timecode], [generate_idempotency_key]) and the convenience
    function [generate_payment_idempotency_key], with the parts of the Python
    runtime they call: [str] methods, [float] comparison and fixed-point
    formatting, [datetime.strftime], the UTC clock and [hashlib].

    Conventions.
    - A Python [str] is a Rocq [string] read as a sequence of code points below
      256.  [str.strip] and [encode('utf-8')] are modelled on that whole range;
      [str.upper] on the ASCII letters (the general statements below use of
      it only that it maps those, keeps whitespace and changes nothing when
      applied twice).  A [str] can also hold code points that UTF-8 cannot
      encode; the statements that a key is returned are therefore made for
      text fields that are ASCII ([ascii_text]), where the model is exact,
      and the others are about the keys that are returned.
    - A Python [float] is a [pyfloat]: not-a-number, an infinity, or the exact
      dyadic rational [(-1)^s * m * 2^e].  IEEE doubles are the values
      accepted by [binary64].
    - A Python [int] is a [Z]; [//] by zero raises, and writing an [int] of
      more than 4300 digits in decimal raises (the default limit of
      CPython 3.11).
    - [strftime] is the C library's: as glibc does, it writes the year
      without padding.
    - Exceptions are values of [exn]; a computation that reads the clock or
      hashes runs in the monad [py] over a [world].
    - [hashlib]'s registry of algorithms is a parameter; SHA-256 is
      implemented (FIPS 180-4) so that keys can be computed. *)

From Stdlib Require Import List NArith ZArith Bool Lia String Ascii.
From Stdlib Require Import DecimalString DecimalPos DecimalN.
From Stdlib.Strings Require Import Byte.
Import ListNotations.

Local Open Scope string_scope.

(** ** Exceptions and results *)

Inductive exn : Type :=
| ValueError (msg : string)
| TypeError (msg : string)
| ZeroDivisionError.

Inductive result (A : Type) : Type :=
| Ok (a : A)
| Raise (e : exn).
Arguments Ok {A} a.
Arguments Raise {A} e.

Definition is_ok {A} (r : result A) : bool :=
  match r with Ok _ => true | Raise _ => false end.

(** ** [str] *)

Definition code (c : ascii) : N := N_of_ascii c.

(** [str.upper] on ASCII letters. *)
Definition chr_upper (c : ascii) : ascii :=
  if ((97 <=? code c) && (code c <=? 122))%N then ascii_of_N (code c - 32) else c.

Fixpoint str_upper (s : string) : string :=
  match s with
  | EmptyString => EmptyString
  | String c r => String (chr_upper c) (str_upper r)
  end.

(** [str.isspace] for one code point below 256: TAB..CR, FS..US, SPACE, NEL
    and NBSP. *)
Definition chr_isspace (c : ascii) : bool :=
  let n := code c in
  (((9 <=? n) && (n <=? 13)) || ((28 <=? n) && (n <=? 32))
   || (n =? 133) || (n =? 160))%N.

Fixpoint str_lstrip (s : string) : string :=
  match s with
  | EmptyString => EmptyString
  | String c r => if chr_isspace c then str_lstrip r else s
  end.

Fixpoint str_rstrip (s : string) : string :=
  match s with
  | EmptyString => EmptyString
  | String c r =>
      match str_rstrip r with
      | EmptyString => if chr_isspace c then EmptyString else String c EmptyString
      | r' => String c r'
      end
  end.

Definition str_strip (s : string) : string := str_rstrip (str_lstrip s).

(** Truthiness of a [str]: the empty string is false. *)
Definition str_bool (s : string) : bool :=
  match s with EmptyString => false | String _ _ => true end.

(** [sep.join(parts)]. *)
Definition str_join (sep : string) (parts : list string) : string :=
  String.concat sep parts.

(** [s.encode('utf-8')] for code points below 256. *)
Definition to_byte (n : N) : byte :=
  match Byte.of_N n with Some b => b | None => x00 end.

Fixpoint encode_utf8 (s : string) : list byte :=
  match s with
  | EmptyString => []
  | String c r =>
      let n := code c in
      if (n <? 128)%N then to_byte n :: encode_utf8 r
      else to_byte (192 + n / 64) :: to_byte (128 + n mod 64) :: encode_utf8 r
  end.

(** [x or ""] for an optional string. *)
Definition or_empty (x : option string) : string :=
  match x with
  | Some s => if str_bool s then s else ""
  | None => ""
  end.

(** ** [int] formatting *)

Definition dec (n : N) : string := NilZero.string_of_uint (N.to_uint n).

Fixpoint zeros (n : nat) : string :=
  match n with O => EmptyString | S k => String "0" (zeros k) end.

Definition zfill (width : nat) (s : string) : string :=
  zeros (width - String.length s) ++ s.

(** [format(z, "0<width>d")]: the sign counts in the width. *)
Definition format_0d (width : nat) (z : Z) : string :=
  if (z <? 0)%Z then "-" ++ zfill (width - 1) (dec (Z.to_N (- z)))
  else zfill width (dec (Z.to_N z)).

(** The largest number of digits that an [int] may have when it is written
    in decimal, [sys.int_info.default_max_str_digits], and the least
    magnitude that has more. *)
Definition int_max_str_digits : nat := 4300.
Definition int_str_limit : Z := Eval vm_compute in (10 ^ 4300)%Z.

Definition int_too_large : exn :=
  ValueError
    "Exceeds the limit (4300 digits) for integer string conversion; use sys.set_int_max_str_digits() to increase the limit".

(** [f"{z:0<width>d}"]: [format_0d], unless [z] has too many digits. *)
Definition int_format_0d (width : nat) (z : Z) : result string :=
  if (int_str_limit <=? Z.abs z)%Z then Raise int_too_large
  else Ok (format_0d width z).

(** [a // b] on [int]. *)
Definition floordiv (a b : Z) : result Z :=
  if (b =? 0)%Z then Raise ZeroDivisionError else Ok (a / b)%Z.

(** ** [float] *)

Inductive pyfloat : Type :=
| Fnan
| Finf (negative : bool)
| Ffinite (negative : bool) (mantissa : N) (exponent : Z).

Definition binary64 (x : pyfloat) : bool :=
  match x with
  | Ffinite _ m e => ((m <? 2 ^ 53)%N && (-1074 <=? e)%Z && (e <=? 971)%Z)
  | _ => true
  end.

(** [x <= 0]: false on not-a-number. *)
Definition float_le_zero (x : pyfloat) : bool :=
  match x with
  | Fnan => false
  | Finf negative => negative
  | Ffinite negative m _ => (m =? 0)%N || negative
  end.

(** [x > 0]. *)
Definition float_gt_zero (x : pyfloat) : bool :=
  match x with
  | Fnan => false
  | Finf negative => negb negative
  | Ffinite negative m _ => negb (m =? 0)%N && negb negative
  end.

(** [x == y]: equality of the values. *)
Definition float_eq (x y : pyfloat) : bool :=
  match x, y with
  | Finf a, Finf b => Bool.eqb a b
  | Ffinite a m e, Ffinite b n f =>
      let lo := Z.min e f in
      let u := (Z.of_N m * 2 ^ (e - lo))%Z in
      let v := (Z.of_N n * 2 ^ (f - lo))%Z in
      ((if a then - u else u) =? (if b then - v else v))%Z
  | _, _ => false
  end.

(** [m * 2^e * 100] rounded to the nearest integer, ties to even: the
    correctly rounded conversion that ['.2f'] performs. *)
Definition round_cents (m : N) (e : Z) : N :=
  if (0 <=? e)%Z then (m * 100 * 2 ^ Z.to_N e)%N
  else
    let d := (2 ^ Z.to_N (- e))%N in
    let q := (m * 100 / d)%N in
    let r := (m * 100 mod d)%N in
    if (2 * r <? d)%N then q
    else if (d <? 2 * r)%N then (q + 1)%N
    else if N.even q then q else (q + 1)%N.

(** The digits of a number of cents: integer part, ".", two decimals. *)
Definition cents_str (n : N) : string :=
  dec (n / 100) ++ "." ++ zfill 2 (dec (n mod 100)).

(** [f"{x:.2f}"]. *)
Definition format_2f (x : pyfloat) : string :=
  match x with
  | Fnan => "nan"
  | Finf negative => if negative then "-inf" else "inf"
  | Ffinite negative m e =>
      (if negative then "-" else "") ++ cents_str (round_cents m e)
  end.

(** ** [datetime] *)

Record datetime : Type := mk_datetime {
  year : Z; month : Z; day : Z; hour : Z; minute : Z; second : Z;
  microsecond : Z }.

Definition is_leap (y : Z) : bool :=
  ((y mod 4 =? 0) && (negb (y mod 100 =? 0) || (y mod 400 =? 0)))%Z.

Definition days_in_month (y m : Z) : Z :=
  if (m =? 2)%Z then (if is_leap y then 29 else 28)%Z
  else if ((m =? 4) || (m =? 6) || (m =? 9) || (m =? 11))%Z then 30%Z
  else 31%Z.

(** The ranges that the [datetime] constructor enforces. *)
Definition valid_datetime (t : datetime) : bool :=
  ((1 <=? year t) && (year t <=? 9999) && (1 <=? month t) && (month t <=? 12)
   && (1 <=? day t) && (day t <=? days_in_month (year t) (month t))
   && (0 <=? hour t) && (hour t <=? 23) && (0 <=? minute t) && (minute t <=? 59)
   && (0 <=? second t) && (second t <=? 59)
   && (0 <=? microsecond t) && (microsecond t <=? 999999))%Z.

(** One [strftime] directive.  The year is written in decimal without
    padding, as glibc does (a year below 1000 takes fewer than four
    characters; C libraries that pad differ there only).  A directive not
    listed is copied unchanged. *)
Definition strftime_directive (c : ascii) (t : datetime) : string :=
  if (c =? "Y")%char then dec (Z.to_N (year t))
  else if (c =? "m")%char then format_0d 2 (month t)
  else if (c =? "d")%char then format_0d 2 (day t)
  else if (c =? "H")%char then format_0d 2 (hour t)
  else if (c =? "M")%char then format_0d 2 (minute t)
  else if (c =? "S")%char then format_0d 2 (second t)
  else if (c =? "f")%char then format_0d 6 (microsecond t)
  else if (c =? "%")%char then "%"
  else String "%" (String c EmptyString).

Fixpoint strftime (fmt : string) (t : datetime) : string :=
  match fmt with
  | EmptyString => EmptyString
  | String c rest =>
      if (c =? "%")%char then
        match rest with
        | EmptyString => "%"
        | String d rest' => strftime_directive d t ++ strftime rest' t
        end
      else String c (strftime rest t)
  end.

(** ** SHA-256 (FIPS 180-4) *)

Module SHA256.
Local Open Scope N_scope.

Definition word_mod : N := 2 ^ 32.
Definition add32 (x y : N) : N := (x + y) mod word_mod.
Definition shl32 (x n : N) : N := (N.shiftl x n) mod word_mod.
Definition rotr (n x : N) : N := N.lor (N.shiftr x n) (shl32 x (32 - n)).
Definition not32 (x : N) : N := N.lxor x (word_mod - 1).

Definition Ch (x y z : N) : N := N.lxor (N.land x y) (N.land (not32 x) z).
Definition Maj (x y z : N) : N :=
  N.lxor (N.lxor (N.land x y) (N.land x z)) (N.land y z).
Definition bsig0 (x : N) : N := N.lxor (N.lxor (rotr 2 x) (rotr 13 x)) (rotr 22 x).
Definition bsig1 (x : N) : N := N.lxor (N.lxor (rotr 6 x) (rotr 11 x)) (rotr 25 x).
Definition ssig0 (x : N) : N := N.lxor (N.lxor (rotr 7 x) (rotr 18 x)) (N.shiftr x 3).
Definition ssig1 (x : N) : N := N.lxor (N.lxor (rotr 17 x) (rotr 19 x)) (N.shiftr x 10).

(** The round constants are the first 32 fractional bits of the cube roots
    of the first 64 primes, the initial state those of the square roots of
    the first 8; both are computed here rather than tabulated. *)
Definition is_prime (n : N) : bool :=
  (1 <? n) && forallb (fun d => negb (n mod d =? 0) || (n <=? d))
                      (map N.of_nat (seq 2 18)).

Definition primes64 : list N :=
  Eval vm_compute in filter is_prime (map N.of_nat (seq 2 310)).

Fixpoint icbrt_bits (bits : nat) (n r : N) : N :=
  match bits with
  | O => r
  | S b =>
      let r' := r + 2 ^ N.of_nat b in
      icbrt_bits b n (if r' * r' * r' <=? n then r' else r)
  end.
Definition icbrt (n : N) : N := icbrt_bits 40 n 0.

Definition frac_cbrt32 (p : N) : N := icbrt (p * 2 ^ 96) mod word_mod.
Definition frac_sqrt32 (p : N) : N := N.sqrt (p * 2 ^ 64) mod word_mod.

Definition K : list N := Eval vm_compute in map frac_cbrt32 primes64.
Definition H0 : list N := Eval vm_compute in map frac_sqrt32 (firstn 8 primes64).

(** Big-endian bytes of a number. *)
Fixpoint be_bytes (n : nat) (x : N) : list N :=
  match n with
  | O => []
  | S k => (N.shiftr x (8 * N.of_nat k)) mod 256 :: be_bytes k x
  end.

(** Padding: 0x80, zero bytes up to 56 modulo 64, the bit length on 8 bytes. *)
Definition pad (msg : list N) : list N :=
  let len := List.length msg in
  let fill := ((64 - ((len + 9) mod 64)) mod 64)%nat in
  (msg ++ 128 :: repeat 0 fill ++ be_bytes 8 (8 * N.of_nat len))%list.

Fixpoint be_words (fuel : nat) (bs : list N) : list N :=
  match fuel, bs with
  | S f, b0 :: b1 :: b2 :: b3 :: rest =>
      (((b0 * 256 + b1) * 256 + b2) * 256 + b3) :: be_words f rest
  | _, _ => []
  end.

(** The message schedule, newest word first. *)
Fixpoint schedule (n : nat) (rev_w : list N) : list N :=
  match n with
  | O => rev_w
  | S k =>
      let w2 := nth 1 rev_w 0 in
      let w7 := nth 6 rev_w 0 in
      let w15 := nth 14 rev_w 0 in
      let w16 := nth 15 rev_w 0 in
      schedule k (add32 (add32 (add32 (ssig1 w2) w7) (ssig0 w15)) w16 :: rev_w)
  end.

Record regs : Type :=
  Regs { ra : N; rb : N; rc : N; rd : N; re : N; rf : N; rg : N; rh : N }.

Definition round (s : regs) (kw : N * N) : regs :=
  let (k, w) := kw in
  let t1 :=
    add32 (add32 (add32 (add32 (rh s) (bsig1 (re s))) (Ch (re s) (rf s) (rg s))) k) w in
  let t2 := add32 (bsig0 (ra s)) (Maj (ra s) (rb s) (rc s)) in
  Regs (add32 t1 t2) (ra s) (rb s) (rc s) (add32 (rd s) t1) (re s) (rf s) (rg s).

Definition add_regs (s t : regs) : regs :=
  Regs (add32 (ra s) (ra t)) (add32 (rb s) (rb t))
       (add32 (rc s) (rc t)) (add32 (rd s) (rd t))
       (add32 (re s) (re t)) (add32 (rf s) (rf t))
       (add32 (rg s) (rg t)) (add32 (rh s) (rh t)).

Definition compress (s : regs) (block : list N) : regs :=
  let w := rev (schedule 48 (rev block)) in
  add_regs s (fold_left round (combine K w) s).

Fixpoint blocks (fuel : nat) (ws : list N) : list (list N) :=
  match fuel, ws with
  | _, [] => []
  | O, _ => []
  | S f, _ => firstn 16 ws :: blocks f (skipn 16 ws)
  end.

Definition init_regs : regs :=
  Regs (nth 0 H0 0) (nth 1 H0 0) (nth 2 H0 0) (nth 3 H0 0)
       (nth 4 H0 0) (nth 5 H0 0) (nth 6 H0 0) (nth 7 H0 0).

Definition digest (msg : list byte) : list byte :=
  let p := pad (map Byte.to_N msg) in
  let ws := be_words (List.length p) p in
  let s := fold_left compress (blocks (List.length ws) ws) init_regs in
  map to_byte
    (flat_map (be_bytes 4) [ra s; rb s; rc s; rd s; re s; rf s; rg s; rh s]).

End SHA256.

(** ** [hashlib] *)

(** Lower-case hexadecimal of a digest, as [hexdigest] prints it. *)
Definition hexchar (n : N) : ascii :=
  ascii_of_N (if (n <? 10)%N then 48 + n else 87 + n)%N.

Fixpoint hexlify (bs : list byte) : string :=
  match bs with
  | [] => EmptyString
  | b :: r =>
      String (hexchar (Byte.to_N b / 16))
        (String (hexchar (Byte.to_N b mod 16)) (hexlify r))
  end.

(** An algorithm of the registry: one with a digest of fixed length, or an
    extendable-output function, whose [hexdigest] needs a length. *)
Inductive hash_kind : Type :=
| FixedDigest (f : list byte -> list byte)
| Xof (f : nat -> list byte -> list byte).

Record hash_obj : Type := mk_hash_obj {
  hash_name : string; hash_alg : hash_kind; hash_buffer : list byte }.

(** The registry that holds SHA-256 alone. *)
Definition hashlib_sha256 (name : string) : option hash_kind :=
  if (name =? "sha256") then Some (FixedDigest SHA256.digest) else None.

(** ** The world and the monad of effects *)

(** What a call can observe or change outside its arguments: the UTC clock
    and the record of the data fed to hash objects. *)
Record world : Type := mk_world {
  utc_clock : datetime; hash_log : list (string * list byte) }.

Definition py (A : Type) : Type := world -> result A * world.

Definition ret {A} (a : A) : py A := fun w => (Ok a, w).
Definition raise {A} (e : exn) : py A := fun w => (Raise e, w).
Definition bind {A B} (c : py A) (k : A -> py B) : py B :=
  fun w => match c w with
           | (Ok a, w') => k a w'
           | (Raise e, w') => (Raise e, w')
           end.
Definition lift {A} (r : result A) : py A := fun w => (r, w).

Notation "x <- c ;; k" := (bind c (fun x => k))
  (at level 61, c at next level, right associativity).

(** The outcome of running a computation, and the world it leaves. *)
Definition outcome {A} (c : py A) (w : world) : result A := fst (c w).
Definition after {A} (c : py A) (w : world) : world := snd (c w).

(** [datetime.utcnow()]. *)
Definition utcnow : py datetime := fun w => (Ok (utc_clock w), w).

(** ** [ClientType] *)

Inductive ClientType : Type :=
| WEB_APP | MOBILE_APP | WEB_API | DESKTOP_APP | OTHER.

Definition ClientType_value (c : ClientType) : string :=
  match c with
  | WEB_APP => "web_app"
  | MOBILE_APP => "mobile_app"
  | WEB_API => "web_api"
  | DESKTOP_APP => "desktop_app"
  | OTHER => "other"
  end.

(** ** [PaymentIdentikit] *)

Record PaymentIdentikit : Type := mk_identikit {
  receiver_bank_code : string;
  receiver_account_number : string;
  sender_bank_code : string;
  sender_account_number : string;
  transaction_amount : pyfloat;
  client_type : ClientType;
  client_location : string;
  internal_transaction_narration : string;
  client_id : string;
  timecode_interval_minutes : Z }.

(** The loop of [_validate] over the required fields. *)
Fixpoint check_required (fields : list (string * string)) : result unit :=
  match fields with
  | [] => Ok tt
  | (field_name, field_value) :: rest =>
      if negb (str_bool field_value)
      then Raise (ValueError (field_name ++ " cannot be empty"))
      else check_required rest
  end.

Definition required_fields (self : PaymentIdentikit) : list (string * string) :=
  [ ("receiver_bank_code", receiver_bank_code self);
    ("receiver_account_number", receiver_account_number self);
    ("sender_bank_code", sender_bank_code self);
    ("sender_account_number", sender_account_number self);
    ("client_location", client_location self) ].

Definition _validate (self : PaymentIdentikit) : result unit :=
  match check_required (required_fields self) with
  | Raise e => Raise e
  | Ok _ =>
      if float_le_zero (transaction_amount self)
      then Raise (ValueError "transaction_amount must be greater than 0")
      else Ok tt
  end.

(** The defaults of the keyword arguments. *)
Definition default_timecode_interval_minutes : Z := 15.
Definition default_hash_algorithm : string := "sha256".

Definition __init__
    (receiver_bank_code receiver_account_number : string)
    (sender_bank_code sender_account_number : string)
    (transaction_amount : pyfloat) (client_type : ClientType)
    (client_location : string)
    (internal_transaction_narration client_id : option string)
    (timecode_interval_minutes : Z) : result PaymentIdentikit :=
  let self :=
    mk_identikit
      (str_strip (str_upper receiver_bank_code))
      (str_strip receiver_account_number)
      (str_strip (str_upper sender_bank_code))
      (str_strip sender_account_number)
      transaction_amount
      client_type
      (str_strip client_location)
      (or_empty internal_transaction_narration)
      (or_empty client_id)
      timecode_interval_minutes in
  match _validate self with
  | Raise e => Raise e
  | Ok _ => Ok self
  end.

Definition generate_timecode (self : PaymentIdentikit)
    (transaction_time : option datetime) : py string :=
  transaction_time <-
    match transaction_time with
    | None => utcnow
    | Some t => ret t
    end ;;
  let minutes := minute transaction_time in
  let interval_minutes := timecode_interval_minutes self in
  q <- lift (floordiv minutes interval_minutes) ;;
  let rounded_minutes := (q * interval_minutes)%Z in
  bucket <- lift (int_format_0d 2 rounded_minutes) ;;
  ret (strftime ("%Y%m%d%H" ++ bucket) transaction_time).

(** The two strings that are hashed. *)
Definition receiver_string (self : PaymentIdentikit) : string :=
  str_join "|" [ receiver_bank_code self; receiver_account_number self ].

Definition sender_string (self : PaymentIdentikit) (timecode : string) : string :=
  str_join "|"
    [ sender_bank_code self;
      sender_account_number self;
      timecode;
      format_2f (transaction_amount self);
      internal_transaction_narration self;
      ClientType_value (client_type self);
      client_id self;
      client_location self ].

(** ** Key derivation, over the registry of [hashlib] *)

Section Hashlib.

(** [hashlib]'s registry: the algorithm a name stands for, if any. *)
Variable registry : string -> option hash_kind.

(** [hashlib.new(name)]. *)
Definition hashlib_new (name : string) : py hash_obj :=
  match registry name with
  | Some k => ret (mk_hash_obj name k [])
  | None => raise (ValueError ("unsupported hash type " ++ name))
  end.

(** [h.update(data)]. *)
Definition hash_update (h : hash_obj) (data : list byte) : py hash_obj :=
  fun w =>
    (Ok (mk_hash_obj (hash_name h) (hash_alg h) (hash_buffer h ++ data)%list),
     mk_world (utc_clock w) (hash_log w ++ [(hash_name h, data)])%list).

(** [h.hexdigest()], called without a length. *)
Definition hash_hexdigest (h : hash_obj) : py string :=
  match hash_alg h with
  | FixedDigest f => ret (hexlify (f (hash_buffer h)))
  | Xof _ => raise (TypeError "hexdigest() missing required argument 'length' (pos 1)")
  end.

Definition generate_idempotency_key (self : PaymentIdentikit)
    (transaction_time : option datetime) (hash_algorithm : string) : py string :=
  timecode <- generate_timecode self transaction_time ;;
  let receiver_string := receiver_string self in
  let sender_string := sender_string self timecode in
  receiver_hash_obj <- hashlib_new hash_algorithm ;;
  receiver_hash_obj <- hash_update receiver_hash_obj (encode_utf8 receiver_string) ;;
  receiver_hash <- hash_hexdigest receiver_hash_obj ;;
  sender_hash_obj <- hashlib_new hash_algorithm ;;
  sender_hash_obj <- hash_update sender_hash_obj (encode_utf8 sender_string) ;;
  sender_hash <- hash_hexdigest sender_hash_obj ;;
  let idempotency_key := receiver_hash ++ "." ++ sender_hash in
  ret idempotency_key.

Definition generate_payment_idempotency_key
    (receiver_bank_code receiver_account_number : string)
    (sender_bank_code sender_account_number : string)
    (transaction_amount : pyfloat) (client_type : ClientType)
    (client_location : string)
    (internal_transaction_narration client_id : option string)
    (transaction_time : option datetime)
    (timecode_interval_minutes : Z) (hash_algorithm : string) : py string :=
  identikit <-
    lift (__init__ receiver_bank_code receiver_account_number
            sender_bank_code sender_account_number transaction_amount
            client_type client_location internal_transaction_narration
            client_id timecode_interval_minutes) ;;
  generate_idempotency_key identikit transaction_time hash_algorithm.

End Hashlib.

(** ** Definitions used to state the properties *)

(** The instant a call works with: the one supplied, else the clock's. *)
Definition instant_of (transaction_time : option datetime) (w : world) : datetime :=
  match transaction_time with
  | Some t => t
  | None => utc_clock w
  end.

Fixpoint all_chars (p : ascii -> bool) (s : string) : bool :=
  match s with
  | EmptyString => true
  | String c r => p c && all_chars p r
  end.

Definition is_digit (c : ascii) : bool := ((48 <=? code c) && (code c <=? 57))%N.

Definition sign_or_digit (c : ascii) : bool := is_digit c || (c =? "-")%char.
Definition not_percent (c : ascii) : bool := negb (c =? "%")%char.

Definition not_dot (c : ascii) : bool := negb (c =? ".")%char.

(** A test holds of the [n] integers from [lo] on. *)
Fixpoint all_from (p : Z -> bool) (lo : Z) (n : nat) : bool :=
  match n with
  | O => true
  | S k => p lo && all_from p (lo + 1) k
  end.

(** Fixed-width decimal numerals, written digit by digit. *)
Definition digit (z : Z) : ascii := ascii_of_N (48 + Z.to_N z).

Definition two_digits (z : Z) : string :=
  String (digit (z / 10)) (String (digit (z mod 10)) EmptyString).

Definition four_digits (z : Z) : string :=
  String (digit (z / 1000)) (String (digit (z / 100 mod 10)) (two_digits (z mod 100))).

(** The timecode as the specification describes it. *)
Definition spec_timecode (interval : Z) (t : datetime) : string :=
  four_digits (year t) ++ two_digits (month t) ++ two_digits (day t)
  ++ two_digits (hour t) ++ two_digits (minute t / interval * interval).

(** The year, month, day and hour as [strftime] writes them at a valid
    instant. *)
Definition date_hour (t : datetime) : string :=
  dec (Z.to_N (year t)) ++ two_digits (month t) ++ two_digits (day t)
  ++ two_digits (hour t).

(** The number that a decimal numeral stands for. *)
Definition undec (s : string) : N :=
  match NilZero.uint_of_string s with
  | Some d => N.of_uint d
  | None => 0%N
  end.

(** Text made of ASCII characters only, and an Identikit whose seven text
    fields are such. *)
Definition is_ascii (c : ascii) : bool := (code c <? 128)%N.

Definition ascii_text (self : PaymentIdentikit) : bool :=
  all_chars is_ascii (receiver_bank_code self)
  && all_chars is_ascii (receiver_account_number self)
  && all_chars is_ascii (sender_bank_code self)
  && all_chars is_ascii (sender_account_number self)
  && all_chars is_ascii (client_location self)
  && all_chars is_ascii (internal_transaction_narration self)
  && all_chars is_ascii (client_id self).

(** What [generate_timecode] computes from the instant, the clock apart. *)
Definition timecode_of (self : PaymentIdentikit) (t : datetime) : result string :=
  let i := timecode_interval_minutes self in
  if (i =? 0)%Z then Raise ZeroDivisionError
  else
    match int_format_0d 2 (minute t / i * i) with
    | Raise e => Raise e
    | Ok bucket => Ok (strftime "%Y%m%d%H" t ++ bucket)
    end.

(** The error of [hashlib.new] on a name it does not know. *)
Definition unsupported_algorithm (name : string) : exn :=
  ValueError ("unsupported hash type " ++ name).

(** The world after [update] was called with [data] on objects of algorithm
    [name], in order. *)
Definition hashed (w : world) (name : string) (data : list (list byte)) : world :=
  mk_world (utc_clock w) (hash_log w ++ map (fun d => (name, d)) data)%list.

(** The two halves of a key, around its first full stop. *)
Fixpoint receiver_half (key : string) : string :=
  match key with
  | EmptyString => EmptyString
  | String c r => if (c =? ".")%char then EmptyString else String c (receiver_half r)
  end.

Fixpoint sender_half (key : string) : string :=
  match key with
  | EmptyString => EmptyString
  | String c r => if (c =? ".")%char then r else sender_half r
  end.

(** Two Identikits that differ in exactly one component; for the amount, in
    one whose two-decimal rendering differs. *)
Inductive differ_in_one : PaymentIdentikit -> PaymentIdentikit -> Prop :=
| differ_receiver_bank_code rbc rbc' ran sbc san amt ct loc itn cid iv :
    rbc <> rbc' ->
    differ_in_one (mk_identikit rbc ran sbc san amt ct loc itn cid iv)
                  (mk_identikit rbc' ran sbc san amt ct loc itn cid iv)
| differ_receiver_account_number rbc ran ran' sbc san amt ct loc itn cid iv :
    ran <> ran' ->
    differ_in_one (mk_identikit rbc ran sbc san amt ct loc itn cid iv)
                  (mk_identikit rbc ran' sbc san amt ct loc itn cid iv)
| differ_sender_bank_code rbc ran sbc sbc' san amt ct loc itn cid iv :
    sbc <> sbc' ->
    differ_in_one (mk_identikit rbc ran sbc san amt ct loc itn cid iv)
                  (mk_identikit rbc ran sbc' san amt ct loc itn cid iv)
| differ_sender_account_number rbc ran sbc san san' amt ct loc itn cid iv :
    san <> san' ->
    differ_in_one (mk_identikit rbc ran sbc san amt ct loc itn cid iv)
                  (mk_identikit rbc ran sbc san' amt ct loc itn cid iv)
| differ_transaction_amount rbc ran sbc san amt amt' ct loc itn cid iv :
    format_2f amt <> format_2f amt' ->
    differ_in_one (mk_identikit rbc ran sbc san amt ct loc itn cid iv)
                  (mk_identikit rbc ran sbc san amt' ct loc itn cid iv)
| differ_client_type rbc ran sbc san amt ct ct' loc itn cid iv :
    ct <> ct' ->
    differ_in_one (mk_identikit rbc ran sbc san amt ct loc itn cid iv)
                  (mk_identikit rbc ran sbc san amt ct' loc itn cid iv)
| differ_client_location rbc ran sbc san amt ct loc loc' itn cid iv :
    loc <> loc' ->
    differ_in_one (mk_identikit rbc ran sbc san amt ct loc itn cid iv)
                  (mk_identikit rbc ran sbc san amt ct loc' itn cid iv)
| differ_narration rbc ran sbc san amt ct loc itn itn' cid iv :
    itn <> itn' ->
    differ_in_one (mk_identikit rbc ran sbc san amt ct loc itn cid iv)
                  (mk_identikit rbc ran sbc san amt ct loc itn' cid iv)
| differ_client_id rbc ran sbc san amt ct loc itn cid cid' iv :
    cid <> cid' ->
    differ_in_one (mk_identikit rbc ran sbc san amt ct loc itn cid iv)
                  (mk_identikit rbc ran sbc san amt ct loc itn cid' iv).

(** [100 * m * 2^e], a number of cents, cut to an integer: the integer part
    and the first two decimals of the amount. *)
Definition trunc_cents (m : N) (e : Z) : N :=
  if (0 <=? e)%Z then (m * 100 * 2 ^ Z.to_N e)%N
  else (m * 100 / 2 ^ Z.to_N (- e))%N.

(** The amount [m * 2^e] lies strictly within half a cent of [c] cents:
    [|100 * m * 2^e - c| < 1/2], with the denominator cleared. *)
Definition within_half_cent (m : N) (e : Z) (c : N) : Prop :=
  (2 * Z.abs (100 * Z.of_N m * 2 ^ Z.max e 0 - Z.of_N c * 2 ^ Z.max (- e) 0)
   < 2 ^ Z.max (- e) 0)%Z.

(** The transactions of the usage examples. *)
Definition instant_14_30 : datetime := mk_datetime 2024 1 15 14 30 0 0.
Definition at_14 (mi : Z) : datetime := mk_datetime 2024 1 15 14 mi 0 0.
Definition morning : world := mk_world (mk_datetime 2025 6 1 9 7 0 0) [].

Definition float_of_N (n : N) : pyfloat := Ffinite false n 0.
(** The double nearest to 0.01. *)
Definition float_0_01 : pyfloat := Ffinite false 5764607523034235 (-59).

Definition example_transaction (rbc : string) (amount : pyfloat) (interval : Z)
  : result PaymentIdentikit :=
  __init__ rbc "1234567890" "BANK002" "9876543210" amount WEB_APP "US-CA-SF"
    None None interval.

Definition example_identikit (rbc : string) (amount : pyfloat) (interval : Z)
  : PaymentIdentikit :=
  mk_identikit rbc "1234567890" "BANK002" "9876543210" amount WEB_APP "US-CA-SF"
    "" "" interval.

(** Whether a string begins, ends with a whitespace character. *)
Definition starts_with_space (s : string) : bool :=
  match s with
  | EmptyString => false
  | String c _ => chr_isspace c
  end.

Fixpoint ends_with_space (s : string) : bool :=
  match s with
  | EmptyString => false
  | String c r =>
      match r with
      | EmptyString => chr_isspace c
      | String _ _ => ends_with_space r
      end
  end.

Definition is_lower (c : ascii) : bool := ((97 <=? code c) && (code c <=? 122))%N.
Definition not_lower (c : ascii) : bool := negb (is_lower c).

(** A required field as construction leaves it: not empty, no whitespace at
    either end. *)
Definition trimmed (s : string) : bool :=
  str_bool s && negb (starts_with_space s) && negb (ends_with_space s).

(** What holds of every Identikit that [__init__] returns. *)
Definition well_formed (self : PaymentIdentikit) : bool :=
  trimmed (receiver_bank_code self)
  && all_chars not_lower (receiver_bank_code self)
  && trimmed (receiver_account_number self)
  && trimmed (sender_bank_code self)
  && all_chars not_lower (sender_bank_code self)
  && trimmed (sender_account_number self)
  && trimmed (client_location self)
  && negb (float_le_zero (transaction_amount self)).

(** Lower-case hexadecimal digits, and the bytes a hexadecimal string
    stands for. *)
Definition is_hex (c : ascii) : bool :=
  is_digit c || ((97 <=? code c) && (code c <=? 102))%N.

Definition unhex_char (c : ascii) : N :=
  if is_digit c then (code c - 48)%N else (code c - 87)%N.

Fixpoint unhexlify (s : string) : list byte :=
  match s with
  | String a (String b r) => to_byte (16 * unhex_char a + unhex_char b) :: unhexlify r
  | _ => []
  end.

(** A registry that also knows one extendable-output algorithm; its output
    function [g] is never applied by a call of [hexdigest()] without length. *)
Definition hashlib_with_xof (g : nat -> list byte -> list byte) (name : string)
  : option hash_kind :=
  if (name =? "shake_128") then Some (Xof g) else hashlib_sha256 name.

Definition no_output (n : nat) (data : list byte) : list byte := repeat x00 n.

(** ** Strings *)

Lemma append_nil_r (s : string) : s ++ "" = s.
Proof. induction s as [|c s IH]; simpl; [reflexivity | now rewrite IH]. Qed.

Lemma append_assoc (a b c : string) : (a ++ b) ++ c = a ++ (b ++ c).
Proof. induction a as [|x a IH]; simpl; [reflexivity | now rewrite IH]. Qed.

Lemma length_append (a b : string) :
  String.length (a ++ b) = (String.length a + String.length b)%nat.
Proof. induction a as [|x a IH]; simpl; [reflexivity | now rewrite IH]. Qed.

Lemma append_inv_head (p a b : string) : p ++ a = p ++ b -> a = b.
Proof.
  induction p as [|x p IH]; simpl; intros H; [exact H | ].
  injection H as H. now apply IH.
Qed.

Lemma list_of_append (a b : string) :
  list_ascii_of_string (a ++ b)
  = (list_ascii_of_string a ++ list_ascii_of_string b)%list.
Proof. induction a as [|x a IH]; simpl; [reflexivity | now rewrite IH]. Qed.

Lemma append_inv_tail (a b q : string) : a ++ q = b ++ q -> a = b.
Proof.
  intros H. apply (f_equal list_ascii_of_string) in H.
  rewrite !list_of_append in H. apply app_inv_tail in H.
  rewrite <- (string_of_list_ascii_of_string a), <- (string_of_list_ascii_of_string b).
  now rewrite H.
Qed.

Lemma all_chars_append (p : ascii -> bool) (a b : string) :
  all_chars p (a ++ b) = all_chars p a && all_chars p b.
Proof.
  induction a as [|x a IH]; simpl; [reflexivity | ].
  now rewrite IH, andb_assoc.
Qed.

Lemma all_chars_weaken (p q : ascii -> bool) (s : string) :
  (forall c, p c = true -> q c = true) ->
  all_chars p s = true -> all_chars q s = true.
Proof.
  intros Hpq. induction s as [|c s IH]; simpl; [reflexivity | ].
  rewrite !andb_true_iff. intros [Hc Hs]. auto.
Qed.

(** ** Decimal numerals *)

Lemma uint_digits (d : Decimal.uint) :
  all_chars is_digit (NilEmpty.string_of_uint d) = true.
Proof. induction d; simpl; auto. Qed.

Lemma dec_digits (n : N) : all_chars is_digit (dec n) = true.
Proof.
  unfold dec, NilZero.string_of_uint.
  destruct (N.to_uint n) eqn:E; try reflexivity; rewrite <- E; apply uint_digits.
Qed.

Lemma zeros_digits (n : nat) : all_chars is_digit (zeros n) = true.
Proof. induction n; simpl; auto. Qed.

Lemma zfill_digits (width : nat) (s : string) :
  all_chars is_digit s = true -> all_chars is_digit (zfill width s) = true.
Proof.
  intros H. unfold zfill. now rewrite all_chars_append, zeros_digits, H.
Qed.

Lemma format_0d_chars (width : nat) (z : Z) :
  all_chars sign_or_digit (format_0d width z) = true.
Proof.
  unfold format_0d. destruct (z <? 0)%Z.
  - change ("-" ++ ?s) with (String "-" s). simpl.
    apply all_chars_weaken with (p := is_digit).
    + intros c Hc. unfold sign_or_digit. now rewrite Hc.
    + apply zfill_digits, dec_digits.
  - apply all_chars_weaken with (p := is_digit).
    + intros c Hc. unfold sign_or_digit. now rewrite Hc.
    + apply zfill_digits, dec_digits.
Qed.

Lemma sign_or_digit_not_percent (c : ascii) :
  sign_or_digit c = true -> not_percent c = true.
Proof.
  unfold sign_or_digit, not_percent, is_digit.
  destruct (Ascii.eqb_spec c "%") as [->|]; [vm_compute; discriminate | reflexivity].
Qed.

(** On the numbers that fit, [format_0d] writes the fixed-width numerals. *)
Lemma format_0d_two_digits (z : Z) :
  (0 <= z < 100)%Z -> format_0d 2 z = two_digits z.
Proof.
  intros Hz.
  assert (H : forallb (fun n => format_0d 2 (Z.of_nat n) =? two_digits (Z.of_nat n))
                (seq 0 100) = true) by (vm_compute; reflexivity).
  rewrite forallb_forall in H. specialize (H (Z.to_nat z)).
  rewrite Z2Nat.id in H by lia. apply String.eqb_eq, H, in_seq. lia.
Qed.

Lemma two_digits_inj (a b : Z) :
  (0 <= a < 100)%Z -> (0 <= b < 100)%Z -> two_digits a = two_digits b -> a = b.
Proof.
  intros Ha Hb H.
  assert (D : forall x y, (0 <= x < 10)%Z -> (0 <= y < 10)%Z -> digit x = digit y -> x = y).
  { intros x y Hx Hy E. unfold digit in E.
    apply (f_equal N_of_ascii) in E.
    rewrite !N_ascii_embedding in E by lia. lia. }
  unfold two_digits in H. injection H as H1 H2.
  apply D in H1; [ | split; [apply Z.div_pos | apply Z.div_lt_upper_bound]; lia
                   | split; [apply Z.div_pos | apply Z.div_lt_upper_bound]; lia ].
  apply D in H2; [ | apply Z.mod_pos_bound; lia | apply Z.mod_pos_bound; lia ].
  rewrite (Z.div_mod a 10), (Z.div_mod b 10) by lia. lia.
Qed.

Lemma two_digits_shape (z : Z) :
  (0 <= z < 100)%Z ->
  String.length (two_digits z) = 2%nat /\ all_chars is_digit (two_digits z) = true.
Proof.
  intros Hz. split; [reflexivity | ].
  rewrite <- format_0d_two_digits by exact Hz.
  unfold format_0d. replace (z <? 0)%Z with false by (symmetry; apply Z.ltb_ge; lia).
  apply zfill_digits, dec_digits.
Qed.

Lemma digit_is_digit (z : Z) : (0 <= z < 10)%Z -> is_digit (digit z) = true.
Proof.
  intros Hz. unfold is_digit, digit, code.
  rewrite N_ascii_embedding by lia.
  apply andb_true_iff. split; apply N.leb_le; lia.
Qed.

Lemma four_digits_shape (z : Z) :
  (0 <= z < 10000)%Z ->
  String.length (four_digits z) = 4%nat /\ all_chars is_digit (four_digits z) = true.
Proof.
  intros Hz. split; [reflexivity | ].
  unfold four_digits, two_digits. cbn [all_chars].
  rewrite !digit_is_digit; [reflexivity | | | | ];
    Z.to_euclidean_division_equations; lia.
Qed.

Lemma all_from_spec (p : Z -> bool) (n : nat) :
  forall lo : Z,
    all_from p lo n = true ->
    forall z : Z, (lo <= z < lo + Z.of_nat n)%Z -> p z = true.
Proof.
  induction n as [|n IH]; intros lo H z Hz; [lia | ].
  cbn [all_from] in H. apply andb_true_iff in H as [H0 H1].
  destruct (Z.eq_dec z lo) as [-> | Hne]; [exact H0 | ].
  apply (IH (lo + 1)%Z H1). lia.
Qed.

(** ** SHA-256 on the standard test messages *)

Example sha256_empty :
  hexlify (SHA256.digest (encode_utf8 ""))
  = "e3b0c44298fc1c149afbf4c8996fb92427ae41e4649b934ca495991b7852b855".
Proof. vm_compute. reflexivity. Qed.

Example sha256_abc :
  hexlify (SHA256.digest (encode_utf8 "abc"))
  = "ba7816bf8f01cfea414140de5dae2223b00361a396177a9cb410ff61f20015ad".
Proof. vm_compute. reflexivity. Qed.

Example sha256_two_blocks :
  hexlify (SHA256.digest
             (encode_utf8 "abcdbcdecdefdefgefghfghighijhijkijkljklmklmnlmnomnopnopq"))
  = "248d6a61d20638b8e5c026930c3e6039a33ce45964ff2167f6ecedd419db06c1".
Proof. vm_compute. reflexivity. Qed.

(** ** [strftime] *)

Lemma strftime_literal (s : string) (t : datetime) :
  all_chars not_percent s = true -> strftime s t = s.
Proof.
  induction s as [|c s IH]; simpl; [reflexivity | ].
  rewrite andb_true_iff. intros [Hc Hs]. unfold not_percent in Hc.
  destruct (c =? "%")%char; [discriminate | ]. now rewrite IH.
Qed.

Lemma strftime_date_hour_fields (t : datetime) :
  strftime "%Y%m%d%H" t
  = dec (Z.to_N (year t)) ++ format_0d 2 (month t) ++ format_0d 2 (day t)
    ++ format_0d 2 (hour t).
Proof.
  change (strftime "%Y%m%d%H" t)
    with (dec (Z.to_N (year t)) ++ format_0d 2 (month t) ++ format_0d 2 (day t)
          ++ format_0d 2 (hour t) ++ "").
  now rewrite append_nil_r.
Qed.

Lemma strftime_timecode_format (s : string) (t : datetime) :
  strftime ("%Y%m%d%H" ++ s) t = strftime "%Y%m%d%H" t ++ strftime s t.
Proof.
  rewrite strftime_date_hour_fields.
  change (strftime ("%Y%m%d%H" ++ s) t)
    with (dec (Z.to_N (year t)) ++ format_0d 2 (month t) ++ format_0d 2 (day t)
          ++ format_0d 2 (hour t) ++ strftime s t).
  now rewrite !append_assoc.
Qed.

Lemma strftime_date (t : datetime) :
  strftime "%Y%m%d" t
  = dec (Z.to_N (year t)) ++ format_0d 2 (month t) ++ format_0d 2 (day t).
Proof.
  change (strftime "%Y%m%d" t)
    with (dec (Z.to_N (year t)) ++ format_0d 2 (month t) ++ format_0d 2 (day t) ++ "").
  now rewrite append_nil_r.
Qed.

(** ** Writing an [int] *)

Lemma int_str_limit_large : (100 <= int_str_limit)%Z.
Proof. apply Z.leb_le. vm_compute. reflexivity. Qed.

Lemma int_format_0d_below (width : nat) (z : Z) :
  (Z.abs z < int_str_limit)%Z -> int_format_0d width z = Ok (format_0d width z).
Proof.
  intros H. unfold int_format_0d.
  destruct (Z.leb_spec int_str_limit (Z.abs z)); [lia | reflexivity].
Qed.

Lemma int_format_0d_above (width : nat) (z : Z) :
  (int_str_limit <= Z.abs z)%Z -> int_format_0d width z = Raise int_too_large.
Proof.
  intros H. unfold int_format_0d.
  destruct (Z.leb_spec int_str_limit (Z.abs z)); [reflexivity | lia].
Qed.

Lemma int_format_0d_chars (width : nat) (z : Z) (s : string) :
  int_format_0d width z = Ok s -> all_chars not_percent s = true.
Proof.
  unfold int_format_0d. destruct (int_str_limit <=? Z.abs z)%Z; [discriminate | ].
  intros [= <-].
  eapply all_chars_weaken; [apply sign_or_digit_not_percent | apply format_0d_chars].
Qed.

(** ** [generate_timecode] *)

Lemma generate_timecode_run (self : PaymentIdentikit)
    (transaction_time : option datetime) (w : world) :
  generate_timecode self transaction_time w
  = (timecode_of self (instant_of transaction_time w), w).
Proof.
  unfold generate_timecode, timecode_of, bind, lift, floordiv, utcnow, ret.
  destruct transaction_time as [t|]; cbv beta iota zeta delta [instant_of];
    destruct (timecode_interval_minutes self =? 0)%Z; cbv beta iota;
    try reflexivity;
    match goal with
    | |- context [int_format_0d ?n ?z] =>
        destruct (int_format_0d n z) as [b|e] eqn:E; cbv beta iota;
        [ | reflexivity];
        rewrite strftime_timecode_format,
          (strftime_literal b _ (int_format_0d_chars _ _ _ E));
        reflexivity
    end.
Qed.

Lemma bucket_bounds (m i : Z) :
  (0 <= m <= 59)%Z -> (1 <= i)%Z -> (0 <= m / i * i <= 59)%Z.
Proof.
  intros Hm Hi.
  pose proof (Z.mul_div_le m i ltac:(lia)).
  pose proof (Z.div_pos m i ltac:(lia) ltac:(lia)).
  nia.
Qed.

Lemma valid_datetime_ranges (t : datetime) :
  valid_datetime t = true ->
  (1 <= year t <= 9999 /\ 1 <= month t <= 12 /\ 1 <= day t <= 31
   /\ 0 <= hour t <= 23 /\ 0 <= minute t <= 59)%Z.
Proof.
  unfold valid_datetime. rewrite !andb_true_iff, !Z.leb_le.
  intros H. decompose [and] H.
  assert (days_in_month (year t) (month t) <= 31)%Z.
  { unfold days_in_month.
    destruct (month t =? 2)%Z; [destruct (is_leap (year t)); lia | ].
    destruct ((month t =? 4) || (month t =? 6) || (month t =? 9) || (month t =? 11))%Z; lia. }
  lia.
Qed.

Lemma strftime_date_hour (t : datetime) :
  valid_datetime t = true -> strftime "%Y%m%d%H" t = date_hour t.
Proof.
  intros V. apply valid_datetime_ranges in V.
  rewrite strftime_date_hour_fields. unfold date_hour.
  now rewrite !format_0d_two_digits by lia.
Qed.

(** A bucket of at most two digits is written; the timecode follows. *)
Lemma timecode_of_small_bucket (self : PaymentIdentikit) (t : datetime) :
  timecode_interval_minutes self <> 0%Z ->
  (0 <= minute t / timecode_interval_minutes self * timecode_interval_minutes self
   < 100)%Z ->
  timecode_of self t
  = Ok (strftime "%Y%m%d%H" t
        ++ two_digits (minute t / timecode_interval_minutes self
                       * timecode_interval_minutes self)).
Proof.
  intros Hi Hb. unfold timecode_of.
  apply Z.eqb_neq in Hi. rewrite Hi.
  pose proof int_str_limit_large.
  rewrite int_format_0d_below by lia.
  now rewrite format_0d_two_digits by lia.
Qed.

Lemma generate_timecode_spec (self : PaymentIdentikit)
    (transaction_time : option datetime) (w : world) :
  (1 <= timecode_interval_minutes self)%Z ->
  valid_datetime (instant_of transaction_time w) = true ->
  let t := instant_of transaction_time w in
  generate_timecode self transaction_time w
  = (Ok (date_hour t
         ++ two_digits (minute t / timecode_interval_minutes self
                        * timecode_interval_minutes self)), w).
Proof.
  intros Hi Ht t. pose proof (valid_datetime_ranges t Ht) as R.
  pose proof (bucket_bounds (minute t) (timecode_interval_minutes self)
                ltac:(lia) Hi).
  rewrite generate_timecode_run. fold t.
  rewrite timecode_of_small_bucket by lia.
  now rewrite strftime_date_hour.
Qed.

(** For an interval of at least one minute at a valid instant, the timecode
    is computed. *)
Lemma timecode_positive_interval (self : PaymentIdentikit)
    (transaction_time : option datetime) (w : world) :
  (1 <= timecode_interval_minutes self)%Z ->
  valid_datetime (instant_of transaction_time w) = true ->
  exists timecode,
    outcome (generate_timecode self transaction_time) w = Ok timecode.
Proof.
  intros Hi Ht. unfold outcome. rewrite generate_timecode_spec by assumption.
  eexists. reflexivity.
Qed.

(** ** [generate_idempotency_key] *)

Section KeyDerivation.

Variable registry : string -> option hash_kind.

Lemma generate_idempotency_key_run (self : PaymentIdentikit)
    (transaction_time : option datetime) (hash_algorithm : string) (w : world) :
  generate_idempotency_key registry self transaction_time hash_algorithm w
  = match timecode_of self (instant_of transaction_time w) with
    | Raise e => (Raise e, w)
    | Ok timecode =>
        let r := encode_utf8 (receiver_string self) in
        let s := encode_utf8 (sender_string self timecode) in
        match registry hash_algorithm with
        | None => (Raise (unsupported_algorithm hash_algorithm), w)
        | Some (FixedDigest f) =>
            (Ok (hexlify (f r) ++ "." ++ hexlify (f s)),
             hashed w hash_algorithm [r; s])
        | Some (Xof _) =>
            (Raise (TypeError "hexdigest() missing required argument 'length' (pos 1)"),
             hashed w hash_algorithm [r])
        end
    end.
Proof.
  unfold generate_idempotency_key, bind at 1.
  rewrite generate_timecode_run.
  destruct (timecode_of self (instant_of transaction_time w)) as [timecode|e];
    [ | reflexivity].
  unfold hashlib_new, unsupported_algorithm, hashed.
  destruct (registry hash_algorithm) as [[f|g]|];
    cbv beta iota zeta
        delta [bind ret raise hash_update hash_hexdigest hash_alg hash_name
               hash_buffer utc_clock hash_log map];
    try reflexivity.
  now rewrite <- app_assoc.
Qed.

End KeyDerivation.

(** ** Timecodes *)

Lemma band_quotient (m i band : Z) :
  (1 <= i)%Z -> (band * i <= m < (band + 1) * i)%Z -> (m / i = band)%Z.
Proof.
  intros Hi Hm. symmetry. apply Z.div_unique with (r := (m - band * i)%Z); lia.
Qed.

Lemma dec_four_digits (y : Z) :
  (1000 <= y <= 9999)%Z -> dec (Z.to_N y) = four_digits y.
Proof.
  intros Hy.
  assert (H : all_from (fun z => dec (Z.to_N z) =? four_digits z) 1000 (90 * 100)
              = true) by (vm_compute; reflexivity).
  apply String.eqb_eq, (all_from_spec _ _ _ H). lia.
Qed.

Lemma dec_below_1000 (y : Z) :
  (1 <= y < 1000)%Z -> (String.length (dec (Z.to_N y)) <= 3)%nat.
Proof.
  intros Hy.
  assert (H : all_from (fun z => (String.length (dec (Z.to_N z)) <=? 3)%nat) 1 999
              = true) by (vm_compute; reflexivity).
  apply Nat.leb_le, (all_from_spec _ _ _ H). lia.
Qed.

(** C3: at a valid instant whose year is below 1000 the timecode is not the
    12-character YYYYMMDDHHMM that the docstring announces: the year is
    written without padding, so the timecode has fewer than 12 characters
    (0999-01-15 14:30 gives the 11 characters 99901151430), for every
    interval in 1..59. *)
Theorem year_below_1000_timecode (self : PaymentIdentikit)
    (transaction_time : option datetime) (w : world) :
  (1 <= timecode_interval_minutes self <= 59)%Z ->
  valid_datetime (instant_of transaction_time w) = true ->
  (year (instant_of transaction_time w) < 1000)%Z ->
  let t := instant_of transaction_time w in
  exists timecode : string,
    outcome (generate_timecode self transaction_time) w = Ok timecode
    /\ timecode
       = dec (Z.to_N (year t)) ++ two_digits (month t) ++ two_digits (day t)
         ++ two_digits (hour t)
         ++ two_digits (minute t / timecode_interval_minutes self
                        * timecode_interval_minutes self)
    /\ (String.length timecode < 12)%nat
    /\ String.length (spec_timecode (timecode_interval_minutes self) t) = 12%nat
    /\ timecode <> spec_timecode (timecode_interval_minutes self) t.
Proof.
  intros Hi Ht Hy t. fold t in Hy.
  pose proof (valid_datetime_ranges t Ht) as R.
  pose proof (dec_below_1000 (year t) ltac:(lia)) as Hl.
  eexists. split; [ | split; [ | split; [ | split]]].
  - unfold outcome. rewrite generate_timecode_spec by (lia || exact Ht).
    cbn [fst]. fold t. unfold date_hour. rewrite !append_assoc. reflexivity.
  - reflexivity.
  - rewrite !length_append. cbn [two_digits String.length]. lia.
  - reflexivity.
  - intros E. apply (f_equal String.length) in E.
    rewrite !length_append in E.
    cbn [spec_timecode four_digits two_digits append String.length] in E. lia.
Qed.

Lemma year_below_1000_timecode_witness :
  exists timecode : string,
    outcome (generate_timecode (example_identikit "BANK001" (float_of_N 100) 15)
               (Some (mk_datetime 999 1 15 14 30 0 0))) morning = Ok timecode
    /\ timecode = "999" ++ "01" ++ "15" ++ "14" ++ "30"
    /\ (String.length timecode < 12)%nat
    /\ String.length "099901151430" = 12%nat
    /\ timecode <> "099901151430".
Proof.
  refine (year_below_1000_timecode (example_identikit "BANK001" (float_of_N 100) 15)
            (Some (mk_datetime 999 1 15 14 30 0 0)) morning _ _ _).
  - simpl; lia.
  - reflexivity.
  - simpl; lia.
Defined.

(** X16: from the year 1000 on, for an interval in 1..59 and an instant with
    minute-of-hour [m], [generate_timecode] returns the 12-character decimal
    string made of the year (4 digits), the month, day and 24h hour (2 digits
    each) and the bucket [floor(m / interval) * interval] on 2 digits. *)
Theorem generate_timecode_format (self : PaymentIdentikit)
    (transaction_time : option datetime) (w : world) :
  (1 <= timecode_interval_minutes self <= 59)%Z ->
  valid_datetime (instant_of transaction_time w) = true ->
  (1000 <= year (instant_of transaction_time w))%Z ->
  let t := instant_of transaction_time w in
  let bucket := (minute t / timecode_interval_minutes self
                 * timecode_interval_minutes self)%Z in
  let timecode :=
    four_digits (year t) ++ two_digits (month t) ++ two_digits (day t)
    ++ two_digits (hour t) ++ two_digits bucket in
  outcome (generate_timecode self transaction_time) w = Ok timecode
  /\ String.length timecode = 12%nat
  /\ all_chars is_digit timecode = true.
Proof.
  intros Hi Ht Hy t bucket timecode.
  pose proof (valid_datetime_ranges t Ht) as R. fold t in Hy.
  split; [ | split].
  - unfold outcome. rewrite generate_timecode_spec by (lia || exact Ht).
    cbn [fst]. fold t. unfold date_hour. rewrite dec_four_digits by lia.
    unfold timecode. now rewrite !append_assoc.
  - reflexivity.
  - pose proof (bucket_bounds (minute t) (timecode_interval_minutes self)
                  ltac:(lia) ltac:(lia)) as Hb.
    unfold timecode. rewrite !all_chars_append.
    rewrite (proj2 (four_digits_shape (year t) ltac:(lia))).
    rewrite (proj2 (two_digits_shape (month t) ltac:(lia))).
    rewrite (proj2 (two_digits_shape (day t) ltac:(lia))).
    rewrite (proj2 (two_digits_shape (hour t) ltac:(lia))).
    rewrite (proj2 (two_digits_shape bucket ltac:(unfold bucket; lia))).
    reflexivity.
Qed.

Lemma generate_timecode_format_witness :
  outcome (generate_timecode (example_identikit "BANK001" (float_of_N 100) 15)
             (Some instant_14_30)) morning = Ok "202401151430"
  /\ String.length "202401151430" = 12%nat
  /\ all_chars is_digit "202401151430" = true.
Proof.
  refine (generate_timecode_format (example_identikit "BANK001" (float_of_N 100) 15)
            (Some instant_14_30) morning _ _ _).
  - simpl; lia.
  - reflexivity.
  - simpl; lia.
Defined.

Lemma same_band_same_timecode (self : PaymentIdentikit) (t1 t2 : datetime)
    (w1 w2 : world) (band : Z) :
  (1 <= timecode_interval_minutes self)%Z ->
  year t1 = year t2 -> month t1 = month t2 -> day t1 = day t2 -> hour t1 = hour t2 ->
  (band * timecode_interval_minutes self <= minute t1
   < (band + 1) * timecode_interval_minutes self)%Z ->
  (band * timecode_interval_minutes self <= minute t2
   < (band + 1) * timecode_interval_minutes self)%Z ->
  outcome (generate_timecode self (Some t1)) w1
  = outcome (generate_timecode self (Some t2)) w2.
Proof.
  intros Hi Hy Hm Hd Hh H1 H2. unfold outcome.
  rewrite !generate_timecode_run. unfold timecode_of, instant_of, fst.
  rewrite !strftime_date_hour_fields, Hy, Hm, Hd, Hh.
  rewrite (band_quotient _ _ band Hi H1), (band_quotient _ _ band Hi H2).
  reflexivity.
Qed.

Lemma next_band_other_timecode (self : PaymentIdentikit) (t1 t2 : datetime)
    (w1 w2 : world) (band : Z) :
  (1 <= timecode_interval_minutes self)%Z ->
  valid_datetime t1 = true -> valid_datetime t2 = true ->
  year t1 = year t2 -> month t1 = month t2 -> day t1 = day t2 -> hour t1 = hour t2 ->
  (band * timecode_interval_minutes self <= minute t1
   < (band + 1) * timecode_interval_minutes self)%Z ->
  ((band + 1) * timecode_interval_minutes self <= minute t2
   < (band + 1 + 1) * timecode_interval_minutes self)%Z ->
  outcome (generate_timecode self (Some t1)) w1
  <> outcome (generate_timecode self (Some t2)) w2.
Proof.
  intros Hi V1 V2 Hy Hm Hd Hh H1 H2. unfold outcome.
  apply valid_datetime_ranges in V1, V2.
  rewrite !generate_timecode_run. unfold instant_of, fst.
  assert (0 <= band)%Z by nia.
  rewrite !timecode_of_small_bucket
    by (rewrite ?(band_quotient _ _ band Hi H1),
          ?(band_quotient _ _ (band + 1)%Z Hi H2); nia).
  rewrite !strftime_date_hour_fields, Hy, Hm, Hd, Hh.
  rewrite (band_quotient _ _ band Hi H1), (band_quotient _ _ (band + 1)%Z Hi H2).
  intros E. injection E as E. rewrite !append_assoc in E.
  do 4 apply append_inv_head in E.
  apply two_digits_inj in E; nia.
Qed.

(** C4: with an interval in 1..59, two instants of the same year, month, day
    and hour whose minutes lie in the same band [k*interval, (k+1)*interval)
    have the same timecode, and instants in adjacent bands of that hour have
    different ones; with the 15-minute interval, 14:00, 14:05, 14:10 and
    14:14 of one date all give <date>1400 and 14:15 gives <date>1415. *)
Theorem timecode_bands (self : PaymentIdentikit) :
  (1 <= timecode_interval_minutes self <= 59)%Z ->
  (forall (t1 t2 : datetime) (w1 w2 : world) (band : Z),
      valid_datetime t1 = true -> valid_datetime t2 = true ->
      year t1 = year t2 -> month t1 = month t2 -> day t1 = day t2 ->
      hour t1 = hour t2 ->
      (band * timecode_interval_minutes self <= minute t1
       < (band + 1) * timecode_interval_minutes self)%Z ->
      ((band * timecode_interval_minutes self <= minute t2
        < (band + 1) * timecode_interval_minutes self)%Z ->
       outcome (generate_timecode self (Some t1)) w1
       = outcome (generate_timecode self (Some t2)) w2)
      /\ (((band + 1) * timecode_interval_minutes self <= minute t2
           < (band + 1 + 1) * timecode_interval_minutes self)%Z ->
          outcome (generate_timecode self (Some t1)) w1
          <> outcome (generate_timecode self (Some t2)) w2))
  /\ (timecode_interval_minutes self = default_timecode_interval_minutes ->
      forall (y mo d : Z) (w : world),
        let date := strftime "%Y%m%d" (mk_datetime y mo d 0 0 0 0) in
        (forall mi : Z, In mi [0; 5; 10; 14]%Z ->
           outcome (generate_timecode self (Some (mk_datetime y mo d 14 mi 0 0))) w
           = Ok (date ++ "1400"))
        /\ outcome (generate_timecode self (Some (mk_datetime y mo d 14 15 0 0))) w
           = Ok (date ++ "1415")
        /\ date ++ "1400" <> date ++ "1415").
Proof.
  intros Hi. split.
  - intros t1 t2 w1 w2 band V1 V2 Hy Hm Hd Hh H1. split; intros H2.
    + apply same_band_same_timecode with (band := band); auto; lia.
    + apply next_band_other_timecode with (band := band); auto; lia.
  - intros H15 y mo d w date.
    assert (R : forall mi b,
               int_format_0d 2 (mi / 15 * 15) = Ok b ->
               outcome (generate_timecode self (Some (mk_datetime y mo d 14 mi 0 0))) w
               = Ok (date ++ "14" ++ b)).
    { intros mi b Hb. unfold outcome, date.
      rewrite generate_timecode_run, strftime_date.
      unfold timecode_of, instant_of, fst. rewrite H15.
      unfold default_timecode_interval_minutes.
      cbn [Z.eqb minute]. rewrite Hb, strftime_date_hour_fields.
      cbn [year month day hour].
      now rewrite !append_assoc. }
    split; [ | split].
    + intros mi [<-|[<-|[<-|[<-|[]]]]]; apply R; reflexivity.
    + apply R; reflexivity.
    + intros E. apply append_inv_head in E. discriminate E.
Qed.

Lemma timecode_bands_witness :
  let self := example_identikit "BANK001" (float_of_N 100) 15 in
  outcome (generate_timecode self (Some (at_14 0))) morning
  = outcome (generate_timecode self (Some (at_14 14))) morning
  /\ outcome (generate_timecode self (Some (at_14 14))) morning
     <> outcome (generate_timecode self (Some (at_14 15))) morning
  /\ outcome (generate_timecode self (Some (at_14 10))) morning
     = Ok (strftime "%Y%m%d" (mk_datetime 2024 1 15 0 0 0 0) ++ "1400").
Proof.
  intros self.
  assert (Hi : (1 <= timecode_interval_minutes self <= 59)%Z) by (simpl; lia).
  destruct (timecode_bands self Hi) as [B Q].
  split; [ | split].
  - apply (proj1 (B (at_14 0) (at_14 14) morning morning 0%Z eq_refl eq_refl
                    eq_refl eq_refl eq_refl eq_refl ltac:(simpl; lia))).
    simpl; lia.
  - apply (proj2 (B (at_14 14) (at_14 15) morning morning 0%Z eq_refl eq_refl
                    eq_refl eq_refl eq_refl eq_refl ltac:(simpl; lia))).
    simpl; lia.
  - apply (proj1 (Q eq_refl 2024%Z 1%Z 15%Z morning) 10%Z). simpl. tauto.
Defined.

(** The default interval at the instants of the usage example. *)
Example timecode_14_00 :
  map (fun mi => outcome (generate_timecode (example_identikit "BANK001" (float_of_N 100) 15)
                            (Some (at_14 mi))) morning) [0; 5; 10; 14; 15]%Z
  = [Ok "202401151400"; Ok "202401151400"; Ok "202401151400"; Ok "202401151400";
     Ok "202401151415"].
Proof. vm_compute. reflexivity. Qed.

(** An interval that does not divide 60: the last band is 56..59. *)
Example timecode_interval_7 :
  map (fun mi => outcome (generate_timecode (example_identikit "BANK001" (float_of_N 100) 7)
                            (Some (at_14 mi))) morning) [0; 6; 7; 55; 56; 59]%Z
  = [Ok "202401151400"; Ok "202401151400"; Ok "202401151407"; Ok "202401151449";
     Ok "202401151456"; Ok "202401151456"].
Proof. vm_compute. reflexivity. Qed.

(** Years as the C library writes them. *)
Example timecode_years :
  map (fun y => outcome (generate_timecode (example_identikit "BANK001" (float_of_N 100) 15)
                           (Some (mk_datetime y 1 15 14 30 0 0))) morning)
      [1; 99; 999; 1000; 9999]%Z
  = [Ok "101151430"; Ok "9901151430"; Ok "99901151430"; Ok "100001151430";
     Ok "999901151430"].
Proof. vm_compute. reflexivity. Qed.
(** ** Construction *)

Lemma check_required_result (fields : list (string * string)) :
  check_required fields = Ok tt
  \/ exists name, In (name, "") fields
                  /\ check_required fields = Raise (ValueError (name ++ " cannot be empty")).
Proof.
  induction fields as [|[n v] rest IH]; simpl; [now left | ].
  destruct v as [|c v]; simpl.
  - right. exists n. auto.
  - destruct IH as [IH|[name [Hin IH]]]; [now left | right; exists name; auto].
Qed.

(** The interval takes no part in validation. *)
Lemma _validate_interval (rbc ran sbc san : string) (amt : pyfloat)
    (ct : ClientType) (loc itn cid : string) (iv iv' : Z) :
  _validate (mk_identikit rbc ran sbc san amt ct loc itn cid iv)
  = _validate (mk_identikit rbc ran sbc san amt ct loc itn cid iv').
Proof. reflexivity. Qed.

Lemma __init___fields (rbc ran sbc san : string) (amt : pyfloat) (ct : ClientType)
    (loc : string) (itn cid : option string) (iv : Z) (self : PaymentIdentikit) :
  __init__ rbc ran sbc san amt ct loc itn cid iv = Ok self ->
  self = mk_identikit (str_strip (str_upper rbc)) (str_strip ran)
           (str_strip (str_upper sbc)) (str_strip san) amt ct (str_strip loc)
           (or_empty itn) (or_empty cid) iv.
Proof.
  unfold __init__. destruct (_validate _); [ | discriminate].
  now intros [= <-].
Qed.

(** Construction fails exactly when a required field is empty once
    normalised or [amount <= 0] holds. *)
Lemma __init___raises_iff (rbc ran sbc san : string) (amt : pyfloat)
    (ct : ClientType) (loc : string) (itn cid : option string) (iv : Z) :
  is_ok (__init__ rbc ran sbc san amt ct loc itn cid iv) = false
  <-> (str_strip (str_upper rbc) = "" \/ str_strip ran = ""
       \/ str_strip (str_upper sbc) = "" \/ str_strip san = ""
       \/ str_strip loc = "" \/ float_le_zero amt = true).
Proof.
  unfold __init__, _validate, required_fields. simpl.
  destruct (str_strip (str_upper rbc)); simpl; [intuition | ].
  destruct (str_strip ran); simpl; [intuition | ].
  destruct (str_strip (str_upper sbc)); simpl; [intuition | ].
  destruct (str_strip san); simpl; [intuition | ].
  destruct (str_strip loc); simpl; [intuition | ].
  destruct (float_le_zero amt); simpl; intuition discriminate.
Qed.

(** The error names a required field that is empty once normalised, or the
    amount. *)
Lemma __init___error (rbc ran sbc san : string) (amt : pyfloat)
    (ct : ClientType) (loc : string) (itn cid : option string) (iv : Z) (e : exn) :
  __init__ rbc ran sbc san amt ct loc itn cid iv = Raise e ->
  (exists name,
      In (name, "")
         [ ("receiver_bank_code", str_strip (str_upper rbc));
           ("receiver_account_number", str_strip ran);
           ("sender_bank_code", str_strip (str_upper sbc));
           ("sender_account_number", str_strip san);
           ("client_location", str_strip loc) ]
      /\ e = ValueError (name ++ " cannot be empty"))
  \/ (float_le_zero amt = true
      /\ e = ValueError "transaction_amount must be greater than 0").
Proof.
  unfold __init__, _validate.
  match goal with
  | |- context [check_required ?l] =>
      destruct (check_required_result l) as [-> | (name & Hin & ->)]
  end.
  - cbn [transaction_amount].
    destruct (float_le_zero amt); [ | discriminate].
    intros [= <-]. now right.
  - intros [= <-]. left. exists name. split; [exact Hin | reflexivity].
Qed.

(** Away from not-a-number, [amount <= 0] is the negation of [amount > 0]. *)
Lemma float_le_zero_gt_zero (x : pyfloat) :
  x <> Fnan -> float_le_zero x = negb (float_gt_zero x).
Proof.
  destruct x as [|n|n m e]; simpl; intros H.
  - now elim H.
  - now destruct n.
  - now destruct (m =? 0)%N, n.
Qed.

Lemma __init___raises_iff_not_positive (rbc ran sbc san : string) (amt : pyfloat)
    (ct : ClientType) (loc : string) (itn cid : option string) (iv : Z) :
  amt <> Fnan ->
  is_ok (__init__ rbc ran sbc san amt ct loc itn cid iv) = false
  <-> (str_strip (str_upper rbc) = "" \/ str_strip ran = ""
       \/ str_strip (str_upper sbc) = "" \/ str_strip san = ""
       \/ str_strip loc = "" \/ float_gt_zero amt = false).
Proof.
  intros Hnan. rewrite __init___raises_iff, (float_le_zero_gt_zero amt Hnan).
  rewrite negb_true_iff. reflexivity.
Qed.

(** The boundary of the amount check, and a required field left blank. *)
Example amount_zero_rejected :
  example_transaction "BANK001" (float_of_N 0) 15
  = Raise (ValueError "transaction_amount must be greater than 0").
Proof. reflexivity. Qed.

Example amount_one_cent_accepted :
  binary64 float_0_01 = true
  /\ example_transaction "BANK001" float_0_01 15
     = Ok (example_identikit "BANK001" float_0_01 15).
Proof. split; reflexivity. Qed.

Example blank_bank_code_rejected :
  example_transaction "  	 " (float_of_N 100) 15
  = Raise (ValueError "receiver_bank_code cannot be empty").
Proof. reflexivity. Qed.

Example bank_code_normalised :
  example_transaction "  bank001 " (float_of_N 100) 15
  = example_transaction "BANK001" (float_of_N 100) 15.
Proof. reflexivity. Qed.

(** C5: at a not-a-number amount, which is not greater than zero,
    construction succeeds: the check [amount <= 0] is false there. *)
Theorem nan_amount_accepted :
  float_gt_zero Fnan = false
  /\ example_transaction "BANK001" Fnan 15 = Ok (example_identikit "BANK001" Fnan 15)
  /\ outcome (generate_idempotency_key hashlib_sha256
                (example_identikit "BANK001" Fnan 15) (Some instant_14_30) "sha256")
       morning
     = Ok (hexlify (SHA256.digest (encode_utf8 "BANK001|1234567890")) ++ "."
           ++ hexlify (SHA256.digest
                (encode_utf8 "BANK002|9876543210|202401151430|nan||web_app||US-CA-SF"))).
Proof. repeat split; vm_compute; reflexivity. Qed.

(** ** A zero interval *)

(** C10: construction with a zero interval succeeds (validation never looks at
    the interval: it succeeds whenever it does with any other interval), and
    every call of [generate_timecode], hence of [generate_idempotency_key],
    on such an object raises ZeroDivisionError, whatever the instant and the
    algorithm; that error is neither of the two ValueErrors. *)
Theorem zero_interval_raises (registry : string -> option hash_kind)
    (rbc ran sbc san : string) (amt : pyfloat) (ct : ClientType) (loc : string)
    (itn cid : option string) (iv : Z) (self : PaymentIdentikit) :
  __init__ rbc ran sbc san amt ct loc itn cid iv = Ok self ->
  exists self0,
    __init__ rbc ran sbc san amt ct loc itn cid 0 = Ok self0
    /\ forall (transaction_time : option datetime) (hash_algorithm : string)
              (w : world),
        outcome (generate_timecode self0 transaction_time) w = Raise ZeroDivisionError
        /\ outcome (generate_idempotency_key registry self0 transaction_time
                      hash_algorithm) w = Raise ZeroDivisionError
        /\ after (generate_idempotency_key registry self0 transaction_time
                    hash_algorithm) w = w
        /\ (forall msg, ZeroDivisionError <> ValueError msg).
Proof.
  intros H. pose proof (__init___fields _ _ _ _ _ _ _ _ _ _ _ H) as ->.
  unfold __init__ in H |- *.
  rewrite (_validate_interval _ _ _ _ _ _ _ _ _ 0 iv).
  destruct (_validate _); [ | discriminate].
  eexists. split; [reflexivity | ].
  intros transaction_time hash_algorithm w. unfold outcome, after.
  rewrite generate_idempotency_key_run, generate_timecode_run.
  unfold timecode_of. cbn [timecode_interval_minutes Z.eqb fst snd].
  repeat split. discriminate.
Qed.

Lemma zero_interval_raises_witness :
  exists self0,
    example_transaction "BANK001" (float_of_N 100) 0 = Ok self0
    /\ forall (transaction_time : option datetime) (hash_algorithm : string)
              (w : world),
        outcome (generate_timecode self0 transaction_time) w = Raise ZeroDivisionError
        /\ outcome (generate_idempotency_key hashlib_sha256 self0 transaction_time
                      hash_algorithm) w = Raise ZeroDivisionError
        /\ after (generate_idempotency_key hashlib_sha256 self0 transaction_time
                    hash_algorithm) w = w
        /\ (forall msg, ZeroDivisionError <> ValueError msg).
Proof.
  apply (zero_interval_raises hashlib_sha256 "BANK001" "1234567890" "BANK002"
           "9876543210" (float_of_N 100) WEB_APP "US-CA-SF" None None 15
           (example_identikit "BANK001" (float_of_N 100) 15)).
  reflexivity.
Defined.

(** ** Keys *)

Lemma hexlify_no_dot (bs : list byte) : all_chars not_dot (hexlify bs) = true.
Proof.
  induction bs as [|b bs IH]; [reflexivity | ].
  cbn [hexlify all_chars]. rewrite IH.
  destruct b; reflexivity.
Qed.

Lemma receiver_half_append (a b : string) :
  all_chars not_dot a = true -> receiver_half (a ++ String "." b) = a.
Proof.
  induction a as [|c a IH]; simpl; [reflexivity | ].
  rewrite andb_true_iff. unfold not_dot at 1. intros [Hc Ha].
  destruct (c =? ".")%char; [discriminate | ]. f_equal. now apply IH.
Qed.

Lemma sender_half_append (a b : string) :
  all_chars not_dot a = true -> sender_half (a ++ String "." b) = b.
Proof.
  induction a as [|c a IH]; simpl; [reflexivity | ].
  rewrite andb_true_iff. unfold not_dot at 1. intros [Hc Ha].
  destruct (c =? ".")%char; [discriminate | ]. now apply IH.
Qed.

(** The outcome of a call, by cases on the interval and the registry. *)
Lemma key_outcome (registry : string -> option hash_kind) (self : PaymentIdentikit)
    (transaction_time : option datetime) (hash_algorithm : string) (w : world) :
  outcome (generate_idempotency_key registry self transaction_time hash_algorithm) w
  = match outcome (generate_timecode self transaction_time) w with
    | Raise e => Raise e
    | Ok timecode =>
        match registry hash_algorithm with
        | None => Raise (unsupported_algorithm hash_algorithm)
        | Some (FixedDigest f) =>
            Ok (hexlify (f (encode_utf8 (receiver_string self))) ++ "."
                ++ hexlify (f (encode_utf8 (sender_string self timecode))))
        | Some (Xof _) =>
            Raise (TypeError "hexdigest() missing required argument 'length' (pos 1)")
        end
    end.
Proof.
  unfold outcome. rewrite generate_idempotency_key_run, generate_timecode_run.
  cbn [fst].
  destruct (timecode_of self (instant_of transaction_time w)); [ | reflexivity].
  destruct (registry hash_algorithm) as [[f|g]|]; reflexivity.
Qed.









(** The key of the first transaction of the usage example, at 14:30. *)
Example example_key :
  outcome (generate_idempotency_key hashlib_sha256
             (example_identikit "BANK001" (float_of_N 100) 15)
             (Some instant_14_30) "sha256") morning
  = Ok ("bf94f8c699d383f5d44bb5b18e1ac684aeb521c9b0ebf9b97ebaa4e63220d1d7"
        ++ "." ++ "8270877bb086e1df0465f94d71323872d017ff7d3f5019e121a0082c0bc47425").
Proof. vm_compute. reflexivity. Qed.




(** An unknown name raises before anything is hashed; a known one hashes the
    receiver string, then the sender string. *)
Example unknown_algorithm_run :
  generate_idempotency_key hashlib_sha256
    (example_identikit "BANK001" (float_of_N 100) 15) (Some instant_14_30) "crc32"
    morning
  = (Raise (ValueError "unsupported hash type crc32"), morning).
Proof. reflexivity. Qed.

Example known_algorithm_log :
  hash_log (after (generate_idempotency_key hashlib_sha256
                     (example_identikit "BANK001" (float_of_N 100) 15)
                     (Some instant_14_30) "sha256") morning)
  = [ ("sha256", encode_utf8 "BANK001|1234567890");
      ("sha256", encode_utf8 "BANK002|9876543210|202401151430|100.00||web_app||US-CA-SF") ].
Proof. vm_compute. reflexivity. Qed.

(** C7: when two calls return keys, the receiver halves are equal as soon as
    the two Identikits agree on the normalised receiver bank code and account
    number, whatever the sender-side fields, amounts, intervals, instants and
    worlds; the sender halves are equal as soon as they agree on every
    sender-side field and on the timecode, whatever the receiver fields. *)
Theorem key_halves_independent (registry : string -> option hash_kind)
    (self1 self2 : PaymentIdentikit) (time1 time2 : option datetime)
    (hash_algorithm : string) (w1 w2 : world) (key1 key2 : string) :
  outcome (generate_idempotency_key registry self1 time1 hash_algorithm) w1 = Ok key1 ->
  outcome (generate_idempotency_key registry self2 time2 hash_algorithm) w2 = Ok key2 ->
  (receiver_bank_code self1 = receiver_bank_code self2 ->
   receiver_account_number self1 = receiver_account_number self2 ->
   receiver_half key1 = receiver_half key2)
  /\ (sender_bank_code self1 = sender_bank_code self2 ->
      sender_account_number self1 = sender_account_number self2 ->
      transaction_amount self1 = transaction_amount self2 ->
      internal_transaction_narration self1 = internal_transaction_narration self2 ->
      client_type self1 = client_type self2 ->
      client_id self1 = client_id self2 ->
      client_location self1 = client_location self2 ->
      outcome (generate_timecode self1 time1) w1
      = outcome (generate_timecode self2 time2) w2 ->
      sender_half key1 = sender_half key2).
Proof.
  rewrite !key_outcome.
  destruct (outcome (generate_timecode self1 time1) w1) as [tc1|]; [ | discriminate].
  destruct (outcome (generate_timecode self2 time2) w2) as [tc2|]; [ | discriminate].
  destruct (registry hash_algorithm) as [[f|g]|]; try discriminate.
  intros [= <-] [= <-]. split.
  - intros Hb Ha.
    rewrite !receiver_half_append by apply hexlify_no_dot.
    unfold receiver_string. now rewrite Hb, Ha.
  - intros Hb Ha Hamt Hitn Hct Hcid Hloc [= ->].
    rewrite !sender_half_append by apply hexlify_no_dot.
    unfold sender_string. now rewrite Hb, Ha, Hamt, Hitn, Hct, Hcid, Hloc.
Qed.

(** Same receiver, everything else different, one interval being 7. *)
Lemma key_halves_independent_witness :
  let self1 := example_identikit "BANK001" (float_of_N 100) 15 in
  let self2 :=
    mk_identikit "BANK001" "1234567890" "BANK009" "555" (float_of_N 7) MOBILE_APP
      "FR-75" "rent" "device-1" 7 in
  exists key1 key2,
    outcome (generate_idempotency_key hashlib_sha256 self1 (Some instant_14_30) "sha256")
      morning = Ok key1
    /\ outcome (generate_idempotency_key hashlib_sha256 self2 None "sha256") morning
       = Ok key2
    /\ receiver_half key1 = receiver_half key2.
Proof.
  intros self1 self2.
  eexists. eexists. split; [ | split].
  - vm_compute. reflexivity.
  - vm_compute. reflexivity.
  - refine (proj1 (key_halves_independent hashlib_sha256 self1 self2
                     (Some instant_14_30) None "sha256" morning morning _ _ _ _) _ _).
    + vm_compute. reflexivity.
    + vm_compute. reflexivity.
    + reflexivity.
    + reflexivity.
Defined.

(** ** Amounts *)

Lemma round_cents_within (m : N) (e : Z) (c : N) :
  within_half_cent m e c -> round_cents m e = c.
Proof.
  unfold within_half_cent, round_cents.
  destruct (Z.leb_spec 0 e) as [He|He].
  - rewrite Z.max_l, Z.max_r by lia. change (2 ^ 0)%Z with 1%Z. intros H.
    apply N2Z.inj. rewrite !N2Z.inj_mul, N2Z.inj_pow, Z2N.id by lia.
    change (Z.of_N 100) with 100%Z. change (Z.of_N 2) with 2%Z. lia.
  - rewrite Z.max_r, (Z.max_l (- e)) by lia. rewrite Z.pow_0_r, Z.mul_1_r.
    assert (Hd : Z.of_N (2 ^ Z.to_N (- e)) = (2 ^ (- e))%Z).
    { rewrite N2Z.inj_pow, Z2N.id by lia. reflexivity. }
    assert (Hpos : (0 < 2 ^ (- e))%Z) by (apply Z.pow_pos_nonneg; lia).
    set (d := (2 ^ Z.to_N (- e))%N) in *. rewrite <- Hd in *.
    clearbody d. clear Hd He e.
    pose proof (N.div_mod' (m * 100) d) as Hdm.
    pose proof (N.mod_lt (m * 100) d ltac:(lia)) as Hr.
    set (q := (m * 100 / d)%N) in *. set (r := (m * 100 mod d)%N) in *.
    clearbody q r. intros H.
    assert (Hz : (100 * Z.of_N m = Z.of_N d * Z.of_N q + Z.of_N r)%Z) by lia.
    rewrite Hz in H. clear Hz Hdm.
    destruct (N.ltb_spec (2 * r) d) as [H1|H1].
    + apply N2Z.inj. nia.
    + destruct (N.ltb_spec d (2 * r)) as [H2|H2].
      * apply N2Z.inj. rewrite N2Z.inj_add. change (Z.of_N 1) with 1%Z. nia.
      * exfalso. assert (E : (Z.of_N d = 2 * Z.of_N r)%Z) by lia.
        rewrite E in H.
        replace (2 * Z.of_N r * Z.of_N q + Z.of_N r - Z.of_N c * (2 * Z.of_N r))%Z
          with (Z.of_N r * (2 * (Z.of_N q - Z.of_N c) + 1))%Z in H by ring.
        destruct (Z.le_gt_cases (Z.of_N c) (Z.of_N q)).
        -- assert (Z.of_N r * 1 <= Z.of_N r * (2 * (Z.of_N q - Z.of_N c) + 1))%Z
             by (apply Z.mul_le_mono_nonneg_l; lia).
           lia.
        -- assert (Z.of_N r * (2 * (Z.of_N q - Z.of_N c) + 1) <= Z.of_N r * (-1))%Z
             by (apply Z.mul_le_mono_nonneg_l; lia).
           lia.
Qed.

(** The rounding is to a nearest number of cents. *)
Lemma round_cents_nearest (m : N) (e : Z) :
  (2 * Z.abs (100 * Z.of_N m * 2 ^ Z.max e 0
              - Z.of_N (round_cents m e) * 2 ^ Z.max (- e) 0)
   <= 2 ^ Z.max (- e) 0)%Z.
Proof.
  unfold round_cents.
  destruct (Z.leb_spec 0 e) as [He|He].
  - rewrite Z.max_l, Z.max_r by lia. change (2 ^ 0)%Z with 1%Z.
    rewrite !N2Z.inj_mul, N2Z.inj_pow, Z2N.id by lia.
    change (Z.of_N 100) with 100%Z. change (Z.of_N 2) with 2%Z. lia.
  - rewrite Z.max_r, (Z.max_l (- e)) by lia. rewrite Z.pow_0_r, Z.mul_1_r.
    assert (Hd : Z.of_N (2 ^ Z.to_N (- e)) = (2 ^ (- e))%Z).
    { rewrite N2Z.inj_pow, Z2N.id by lia. reflexivity. }
    assert (Hpos : (0 < 2 ^ (- e))%Z) by (apply Z.pow_pos_nonneg; lia).
    set (d := (2 ^ Z.to_N (- e))%N) in *. rewrite <- Hd in *.
    clearbody d. clear Hd He e.
    pose proof (N.div_mod' (m * 100) d) as Hdm.
    pose proof (N.mod_lt (m * 100) d ltac:(lia)) as Hr.
    set (q := (m * 100 / d)%N) in *. set (r := (m * 100 mod d)%N) in *.
    clearbody q r.
    assert (Hz : (100 * Z.of_N m = Z.of_N d * Z.of_N q + Z.of_N r)%Z) by lia.
    rewrite Hz. clear Hz Hdm.
    destruct (N.ltb_spec (2 * r) d) as [H1|H1]; [nia | ].
    destruct (N.ltb_spec d (2 * r)) as [H2|H2].
    + rewrite N2Z.inj_add. change (Z.of_N 1) with 1%Z. nia.
    + destruct (N.even q); [nia | ].
      rewrite N2Z.inj_add. change (Z.of_N 1) with 1%Z. nia.
Qed.

Example format_2f_examples :
  map format_2f
    [ float_of_N 100; float_0_01; Ffinite false 1 (-3); Ffinite false 3 (-3);
      Ffinite false 129 (-7); Ffinite false 513 (-9); Ffinite false 6023 (-2);
      Ffinite true 1 (-10); Finf false; Fnan ]
  = [ "100.00"; "0.01"; "0.12"; "0.38"; "1.01"; "1.00"; "1505.75"; "-0.00";
      "inf"; "nan" ].
Proof. vm_compute. reflexivity. Qed.

(** C9, a counterexample: 1.0 and 1.0078125 are both valid amounts that agree
    in the integer part and the first two decimals (100 cents once cut), yet
    they are written "1.00" and "1.01" and give different keys. *)
Lemma third_decimal_rounds_up :
  let a := Ffinite false 1 0 in
  let a' := Ffinite false 129 (-7) in
  binary64 a = true /\ binary64 a' = true
  /\ example_transaction "BANK001" a 15 = Ok (example_identikit "BANK001" a 15)
  /\ example_transaction "BANK001" a' 15 = Ok (example_identikit "BANK001" a' 15)
  /\ trunc_cents 1 0 = 100%N /\ trunc_cents 129 (-7) = 100%N
  /\ format_2f a = "1.00" /\ format_2f a' = "1.01"
  /\ outcome (generate_idempotency_key hashlib_sha256
                (example_identikit "BANK001" a 15) (Some instant_14_30) "sha256")
       morning
     <> outcome (generate_idempotency_key hashlib_sha256
                   (example_identikit "BANK001" a' 15) (Some instant_14_30) "sha256")
          morning.
Proof.
  cbv zeta. repeat split; try (vm_compute; reflexivity).
  vm_compute. discriminate.
Qed.

(** C9, amended: if two finite positive amounts lie strictly within half a
    cent of the same number of cents (they round to the same second decimal),
    then they are formatted alike and, every other field being the same, the
    keys for the same instant and algorithm are identical. *)
Theorem amounts_within_half_cent_collapse (registry : string -> option hash_kind)
    (m1 m2 : N) (e1 e2 : Z) (c : N) :
  within_half_cent m1 e1 c -> within_half_cent m2 e2 c ->
  format_2f (Ffinite false m1 e1) = format_2f (Ffinite false m2 e2)
  /\ forall (rbc ran sbc san : string) (ct : ClientType) (loc : string)
            (itn cid : option string) (iv : Z) (self1 self2 : PaymentIdentikit),
      __init__ rbc ran sbc san (Ffinite false m1 e1) ct loc itn cid iv = Ok self1 ->
      __init__ rbc ran sbc san (Ffinite false m2 e2) ct loc itn cid iv = Ok self2 ->
      forall (transaction_time : option datetime) (hash_algorithm : string)
             (w : world),
        outcome (generate_idempotency_key registry self1 transaction_time
                   hash_algorithm) w
        = outcome (generate_idempotency_key registry self2 transaction_time
                     hash_algorithm) w.
Proof.
  intros H1 H2.
  assert (F : format_2f (Ffinite false m1 e1) = format_2f (Ffinite false m2 e2)).
  { unfold format_2f.
    now rewrite (round_cents_within _ _ _ H1), (round_cents_within _ _ _ H2). }
  split; [exact F | ].
  intros rbc ran sbc san ct loc itn cid iv self1 self2 I1 I2 transaction_time
         hash_algorithm w.
  apply __init___fields in I1, I2. subst self1 self2.
  rewrite !key_outcome. unfold outcome. rewrite !generate_timecode_run.
  unfold timecode_of, sender_string, receiver_string.
  cbn [fst timecode_interval_minutes receiver_bank_code receiver_account_number
       sender_bank_code sender_account_number transaction_amount client_type
       client_location internal_transaction_narration client_id].
  now rewrite F.
Qed.

(** 100.001 and 100.004, as the doubles nearest to them, are both within
    half a cent of 10000 cents. *)
Lemma amounts_within_half_cent_collapse_witness :
  let a := Ffinite false 7036944786510578 (-46) in
  let a' := Ffinite false 7037155892743111 (-46) in
  format_2f a = format_2f a'
  /\ forall (rbc ran sbc san : string) (ct : ClientType) (loc : string)
            (itn cid : option string) (iv : Z) (self1 self2 : PaymentIdentikit),
      __init__ rbc ran sbc san a ct loc itn cid iv = Ok self1 ->
      __init__ rbc ran sbc san a' ct loc itn cid iv = Ok self2 ->
      forall (transaction_time : option datetime) (hash_algorithm : string)
             (w : world),
        outcome (generate_idempotency_key hashlib_sha256 self1 transaction_time
                   hash_algorithm) w
        = outcome (generate_idempotency_key hashlib_sha256 self2 transaction_time
                     hash_algorithm) w.
Proof.
  apply (amounts_within_half_cent_collapse hashlib_sha256
           7036944786510578 7037155892743111 (-46) (-46) 10000).
  - unfold within_half_cent. vm_compute. reflexivity.
  - unfold within_half_cent. vm_compute. reflexivity.
Defined.

(** ** Hexadecimal digests *)

Lemma hexlify_hex (bs : list byte) : all_chars is_hex (hexlify bs) = true.
Proof.
  induction bs as [|b bs IH]; [reflexivity | ].
  cbn [hexlify all_chars]. rewrite IH. destruct b; reflexivity.
Qed.

Lemma hexlify_length (bs : list byte) :
  String.length (hexlify bs) = (2 * List.length bs)%nat.
Proof. induction bs as [|b bs IH]; simpl; [reflexivity | rewrite IH; lia]. Qed.

Lemma unhexlify_hexlify (bs : list byte) : unhexlify (hexlify bs) = bs.
Proof.
  induction bs as [|b bs IH]; [reflexivity | ].
  cbn [hexlify unhexlify]. rewrite IH. f_equal. destruct b; reflexivity.
Qed.

Lemma hexlify_inj (a b : list byte) : hexlify a = hexlify b -> a = b.
Proof.
  intros E. rewrite <- (unhexlify_hexlify a), <- (unhexlify_hexlify b).
  now rewrite E.
Qed.

(** Joining two hexadecimal digests with a full stop loses nothing. *)
Lemma key_halves_inj (a b a' b' : list byte) :
  hexlify a ++ "." ++ hexlify b = hexlify a' ++ "." ++ hexlify b' ->
  a = a' /\ b = b'.
Proof.
  intros E. change ("." ++ hexlify b) with (String "." (hexlify b)) in E.
  change ("." ++ hexlify b') with (String "." (hexlify b')) in E.
  split; apply hexlify_inj.
  - apply (f_equal receiver_half) in E.
    now rewrite !receiver_half_append in E by apply hexlify_no_dot.
  - apply (f_equal sender_half) in E.
    now rewrite !sender_half_append in E by apply hexlify_no_dot.
Qed.

(** ** Discrimination *)

Lemma ClientType_value_inj (a b : ClientType) :
  ClientType_value a = ClientType_value b -> a = b.
Proof. destruct a, b; simpl; intros E; (reflexivity || discriminate E). Qed.

Ltac drop_field E :=
  apply append_inv_head in E; injection E as E.

(** C8, a counterexample: 1.0 and 1.001953125 are two valid amounts of
    different value; the two Identikits differ in the amount alone, and
    neither string changes (nor does the key). *)
Lemma single_amount_change_unseen :
  let a := Ffinite false 1 0 in
  let a' := Ffinite false 513 (-9) in
  binary64 a = true /\ binary64 a' = true /\ float_eq a a' = false
  /\ example_transaction "BANK001" a 15 = Ok (example_identikit "BANK001" a 15)
  /\ example_transaction "BANK001" a' 15 = Ok (example_identikit "BANK001" a' 15)
  /\ receiver_string (example_identikit "BANK001" a 15)
     = receiver_string (example_identikit "BANK001" a' 15)
  /\ (forall timecode,
        sender_string (example_identikit "BANK001" a 15) timecode
        = sender_string (example_identikit "BANK001" a' 15) timecode)
  /\ outcome (generate_idempotency_key hashlib_sha256
                (example_identikit "BANK001" a 15) (Some instant_14_30) "sha256")
       morning
     = outcome (generate_idempotency_key hashlib_sha256
                  (example_identikit "BANK001" a' 15) (Some instant_14_30) "sha256")
         morning.
Proof.
  cbv zeta. repeat split; try (vm_compute; reflexivity).
Qed.

(** A change of one component, the timecode being the same, changes one of
    the two strings. *)
Lemma differ_in_one_strings (self1 self2 : PaymentIdentikit) :
  differ_in_one self1 self2 ->
  forall timecode : string,
    receiver_string self1 <> receiver_string self2
    \/ sender_string self1 timecode <> sender_string self2 timecode.
Proof.
  intros D timecode.
  destruct D; unfold receiver_string, sender_string;
    cbn [receiver_bank_code receiver_account_number sender_bank_code
         sender_account_number transaction_amount client_type client_location
         internal_transaction_narration client_id str_join String.concat].
  - left. intros E. apply append_inv_tail in E. contradiction.
  - left. intros E. drop_field E. contradiction.
  - right. intros E. apply append_inv_tail in E. contradiction.
  - right. intros E. drop_field E. apply append_inv_tail in E. contradiction.
  - right. intros E. do 3 drop_field E. apply append_inv_tail in E. contradiction.
  - right. intros E. do 5 drop_field E. apply append_inv_tail in E.
    apply ClientType_value_inj in E. contradiction.
  - right. intros E. do 7 drop_field E. contradiction.
  - right. intros E. do 4 drop_field E. apply append_inv_tail in E. contradiction.
  - right. intros E. do 6 drop_field E. apply append_inv_tail in E. contradiction.
Qed.

(** C8, amended: two Identikits that differ in exactly one component (a bank
    code, an account number, the narration, the client type, the client id,
    the location, or the amount when its two-decimal rendering differs), the
    timecode being the same, differ in the receiver string or in the sender
    string.  For every base transaction with the default 15-minute interval,
    every instant and every algorithm with a fixed-length digest [H], the
    variant with amount 100.00 and the one with amount 200.00 have different
    sender strings, the variant with another receiver bank code has a
    different receiver string, and whenever the three calls return keys,
    these are pairwise distinct unless [H] gives the two sender strings, or
    the two receiver strings, the same digest.  With SHA-256, the three keys
    of the example transaction at 2024-01-15 14:30 are returned and are
    pairwise distinct. *)
Theorem single_field_discrimination :
  (forall self1 self2 : PaymentIdentikit,
      differ_in_one self1 self2 ->
      forall timecode : string,
        receiver_string self1 <> receiver_string self2
        \/ sender_string self1 timecode <> sender_string self2 timecode)
  /\ (forall (rbc rbc' ran sbc san : string) (ct : ClientType)
             (loc itn cid : string),
        rbc <> rbc' ->
        let self1 := mk_identikit rbc ran sbc san (float_of_N 100) ct loc itn cid
                       default_timecode_interval_minutes in
        let self2 := mk_identikit rbc ran sbc san (float_of_N 200) ct loc itn cid
                       default_timecode_interval_minutes in
        let self3 := mk_identikit rbc' ran sbc san (float_of_N 100) ct loc itn cid
                       default_timecode_interval_minutes in
        forall (registry : string -> option hash_kind) (hash_algorithm : string)
               (H : list byte -> list byte) (transaction_time : option datetime)
               (w : world) (timecode key1 key2 key3 : string),
          registry hash_algorithm = Some (FixedDigest H) ->
          outcome (generate_timecode self1 transaction_time) w = Ok timecode ->
          outcome (generate_idempotency_key registry self1 transaction_time
                     hash_algorithm) w = Ok key1 ->
          outcome (generate_idempotency_key registry self2 transaction_time
                     hash_algorithm) w = Ok key2 ->
          outcome (generate_idempotency_key registry self3 transaction_time
                     hash_algorithm) w = Ok key3 ->
          sender_string self1 timecode <> sender_string self2 timecode
          /\ receiver_string self1 <> receiver_string self3
          /\ (H (encode_utf8 (sender_string self1 timecode))
              <> H (encode_utf8 (sender_string self2 timecode)) ->
              key1 <> key2)
          /\ (H (encode_utf8 (receiver_string self1))
              <> H (encode_utf8 (receiver_string self3)) ->
              key1 <> key3 /\ key2 <> key3))
  /\ (forall registry : string -> option hash_kind,
        registry "sha256" = Some (FixedDigest SHA256.digest) ->
        forall w : world,
        exists key1 key2 key3 : string,
          outcome (generate_idempotency_key registry
                     (example_identikit "BANK001" (float_of_N 100) 15)
                     (Some instant_14_30) "sha256") w = Ok key1
          /\ outcome (generate_idempotency_key registry
                        (example_identikit "BANK001" (float_of_N 200) 15)
                        (Some instant_14_30) "sha256") w = Ok key2
          /\ outcome (generate_idempotency_key registry
                        (example_identikit "BANK003" (float_of_N 100) 15)
                        (Some instant_14_30) "sha256") w = Ok key3
          /\ key1 <> key2 /\ key1 <> key3 /\ key2 <> key3).
Proof.
  split; [exact differ_in_one_strings | split].
  - intros rbc rbc' ran sbc san ct loc itn cid Hrbc self1 self2 self3
           registry hash_algorithm H transaction_time w timecode key1 key2 key3
           Hreg T1 K1 K2 K3.
    assert (T2 : outcome (generate_timecode self2 transaction_time) w = Ok timecode)
      by exact T1.
    assert (T3 : outcome (generate_timecode self3 transaction_time) w = Ok timecode)
      by exact T1.
    rewrite key_outcome, T1, Hreg in K1.
    rewrite key_outcome, T2, Hreg in K2.
    rewrite key_outcome, T3, Hreg in K3.
    assert (Inj : forall a b : string, Ok a = Ok b -> a = b)
      by (intros a b [= E]; exact E).
    apply Inj in K1, K2, K3. subst key1 key2 key3.
    assert (S12 : sender_string self1 timecode <> sender_string self2 timecode).
    { destruct (differ_in_one_strings self1 self2) with (timecode := timecode)
        as [R | S]; [ | exfalso; apply R; reflexivity | exact S].
      apply differ_transaction_amount. vm_compute. discriminate. }
    assert (R13 : receiver_string self1 <> receiver_string self3).
    { destruct (differ_in_one_strings self1 self3) with (timecode := timecode)
        as [R | S]; [ | exact R | exfalso; apply S; reflexivity].
      apply differ_receiver_bank_code. exact Hrbc. }
    split; [exact S12 | split; [exact R13 | split]].
    + intros N E. apply key_halves_inj in E. apply N, E.
    + intros N. split; intros E; apply key_halves_inj in E; apply N, E.
  - intros registry Hreg w.
    do 3 eexists.
    rewrite !key_outcome, Hreg. unfold outcome. rewrite !generate_timecode_run.
    cbn [fst instant_of].
    split; [vm_compute; reflexivity | ].
    split; [vm_compute; reflexivity | ].
    split; [vm_compute; reflexivity | ].
    repeat split; apply String.eqb_neq; vm_compute; reflexivity.
Qed.

Lemma single_field_discrimination_witness :
  (forall timecode : string,
      receiver_string (example_identikit "BANK001" (float_of_N 100) 15)
      <> receiver_string (example_identikit "BANK001" (float_of_N 200) 15)
      \/ sender_string (example_identikit "BANK001" (float_of_N 100) 15) timecode
         <> sender_string (example_identikit "BANK001" (float_of_N 200) 15) timecode)
  /\ (exists key1 key2 key3 : string,
        outcome (generate_idempotency_key hashlib_sha256
                   (example_identikit "BANK001" (float_of_N 100) 15)
                   None "sha256") morning = Ok key1
        /\ outcome (generate_idempotency_key hashlib_sha256
                      (example_identikit "BANK001" (float_of_N 200) 15)
                      None "sha256") morning = Ok key2
        /\ outcome (generate_idempotency_key hashlib_sha256
                      (example_identikit "BANK003" (float_of_N 100) 15)
                      None "sha256") morning = Ok key3
        /\ key1 <> key2 /\ key1 <> key3 /\ key2 <> key3)
  /\ exists key1 key2 key3 : string,
      outcome (generate_idempotency_key hashlib_sha256
                 (example_identikit "BANK001" (float_of_N 100) 15)
                 (Some instant_14_30) "sha256") morning = Ok key1
      /\ outcome (generate_idempotency_key hashlib_sha256
                    (example_identikit "BANK001" (float_of_N 200) 15)
                    (Some instant_14_30) "sha256") morning = Ok key2
      /\ outcome (generate_idempotency_key hashlib_sha256
                    (example_identikit "BANK003" (float_of_N 100) 15)
                    (Some instant_14_30) "sha256") morning = Ok key3
      /\ key1 <> key2 /\ key1 <> key3 /\ key2 <> key3.
Proof.
  split; [ | split].
  - apply (proj1 single_field_discrimination).
    apply differ_transaction_amount. vm_compute. discriminate.
  - do 3 eexists.
    split; [vm_compute; reflexivity | ].
    split; [vm_compute; reflexivity | ].
    split; [vm_compute; reflexivity | ].
    assert (D : "BANK001" <> "BANK003") by discriminate.
    pose proof (proj1 (proj2 single_field_discrimination)
                  "BANK001" "BANK003" "1234567890" "BANK002" "9876543210"
                  WEB_APP "US-CA-SF" "" "" D
                  hashlib_sha256 "sha256" SHA256.digest None morning
                  "202506010900" _ _ _
                  eq_refl eq_refl eq_refl eq_refl eq_refl) as P.
    destruct P as (_ & _ & P12 & P13).
    split; [apply P12; vm_compute; discriminate | ].
    apply P13. vm_compute. discriminate.
  - apply (proj2 (proj2 single_field_discrimination) hashlib_sha256). reflexivity.
Defined.

(** ** Normalisation *)

Lemma chr_upper_not_lower (c : ascii) : not_lower (chr_upper c) = true.
Proof. destruct c as [[|] [|] [|] [|] [|] [|] [|] [|]]; reflexivity. Qed.

Lemma chr_upper_isspace (c : ascii) : chr_isspace (chr_upper c) = chr_isspace c.
Proof. destruct c as [[|] [|] [|] [|] [|] [|] [|] [|]]; reflexivity. Qed.

Lemma chr_upper_fixed (c : ascii) : not_lower c = true -> chr_upper c = c.
Proof.
  unfold not_lower, is_lower, chr_upper.
  destruct ((97 <=? code c) && (code c <=? 122))%N; [discriminate | reflexivity].
Qed.

Lemma str_upper_not_lower (s : string) : all_chars not_lower (str_upper s) = true.
Proof.
  induction s as [|c s IH]; simpl; [reflexivity | ].
  now rewrite chr_upper_not_lower, IH.
Qed.

Lemma str_upper_fixed (s : string) :
  all_chars not_lower s = true -> str_upper s = s.
Proof.
  induction s as [|c s IH]; simpl; [reflexivity | ].
  rewrite andb_true_iff. intros [Hc Hs].
  now rewrite (chr_upper_fixed c Hc), IH.
Qed.

Lemma str_upper_append (a b : string) :
  str_upper (a ++ b) = str_upper a ++ str_upper b.
Proof. induction a as [|c a IH]; simpl; [reflexivity | now rewrite IH]. Qed.

Lemma str_upper_spaces (s : string) :
  all_chars chr_isspace (str_upper s) = all_chars chr_isspace s.
Proof.
  induction s as [|c s IH]; simpl; [reflexivity | ].
  now rewrite chr_upper_isspace, IH.
Qed.

Lemma all_chars_lstrip (p : ascii -> bool) (s : string) :
  all_chars p s = true -> all_chars p (str_lstrip s) = true.
Proof.
  induction s as [|c s IH]; simpl; [reflexivity | ].
  rewrite andb_true_iff. intros [Hc Hs].
  destruct (chr_isspace c); [auto | simpl; now rewrite Hc, Hs].
Qed.

Lemma all_chars_rstrip (p : ascii -> bool) (s : string) :
  all_chars p s = true -> all_chars p (str_rstrip s) = true.
Proof.
  induction s as [|c s IH]; simpl; [reflexivity | ].
  rewrite andb_true_iff. intros [Hc Hs]. specialize (IH Hs).
  destruct (str_rstrip s) as [|d r].
  - destruct (chr_isspace c); simpl; [reflexivity | now rewrite Hc].
  - change (all_chars p (String c (String d r))) with (p c && all_chars p (String d r)).
    now rewrite Hc, IH.
Qed.

Lemma str_lstrip_starts (s : string) : starts_with_space (str_lstrip s) = false.
Proof.
  induction s as [|c s IH]; simpl; [reflexivity | ].
  destruct (chr_isspace c) eqn:E; [exact IH | simpl; exact E].
Qed.

Lemma str_rstrip_starts (s : string) :
  starts_with_space s = false -> starts_with_space (str_rstrip s) = false.
Proof.
  destruct s as [|c s]; simpl; [reflexivity | ]. intros E.
  destruct (str_rstrip s); [rewrite E | ]; simpl; auto.
Qed.

Lemma str_rstrip_ends (s : string) : ends_with_space (str_rstrip s) = false.
Proof.
  induction s as [|c s IH]; simpl; [reflexivity | ].
  destruct (str_rstrip s) as [|d r].
  - destruct (chr_isspace c) eqn:E; simpl; [reflexivity | exact E].
  - exact IH.
Qed.

Lemma str_lstrip_fixed (s : string) :
  starts_with_space s = false -> str_lstrip s = s.
Proof. destruct s as [|c s]; simpl; [reflexivity | now intros ->]. Qed.

Lemma str_rstrip_fixed (s : string) :
  ends_with_space s = false -> str_rstrip s = s.
Proof.
  induction s as [|c s IH]; [reflexivity | ].
  destruct s as [|d r].
  - simpl. now intros ->.
  - intros E. change (ends_with_space (String d r) = false) in E.
    change (str_rstrip (String c (String d r)))
      with (match str_rstrip (String d r) with
            | EmptyString => if chr_isspace c then EmptyString else String c EmptyString
            | String x y => String c (String x y)
            end).
    now rewrite (IH E).
Qed.

Lemma str_strip_trimmed (s : string) :
  str_strip s <> "" -> trimmed (str_strip s) = true.
Proof.
  intros H. unfold trimmed.
  assert (str_bool (str_strip s) = true) as ->
    by (revert H; destruct (str_strip s); intros H; [now elim H | reflexivity]).
  unfold str_strip.
  now rewrite (str_rstrip_starts _ (str_lstrip_starts s)), str_rstrip_ends.
Qed.

Lemma str_strip_fixed (s : string) : trimmed s = true -> str_strip s = s.
Proof.
  unfold trimmed. rewrite !andb_true_iff, !negb_true_iff. intros [[_ H1] H2].
  unfold str_strip. now rewrite (str_lstrip_fixed s H1), (str_rstrip_fixed s H2).
Qed.

Lemma spaces_rstrip (ws : string) :
  all_chars chr_isspace ws = true -> str_rstrip ws = "".
Proof.
  induction ws as [|c ws IH]; simpl; [reflexivity | ].
  rewrite andb_true_iff. intros [Hc Hs]. now rewrite (IH Hs), Hc.
Qed.

Lemma spaces_lstrip (ws s : string) :
  all_chars chr_isspace ws = true -> str_lstrip (ws ++ s) = str_lstrip s.
Proof.
  induction ws as [|c ws IH]; simpl; [reflexivity | ].
  rewrite andb_true_iff. intros [Hc Hs]. now rewrite Hc, IH.
Qed.

Lemma str_rstrip_spaces (s ws : string) :
  all_chars chr_isspace ws = true -> str_rstrip (s ++ ws) = str_rstrip s.
Proof.
  intros H. induction s as [|c s IH]; simpl; [now apply spaces_rstrip | ].
  now rewrite IH.
Qed.

Lemma str_strip_spaces (l s r : string) :
  all_chars chr_isspace l = true -> all_chars chr_isspace r = true ->
  str_strip (l ++ s ++ r) = str_strip s.
Proof.
  intros Hl Hr. unfold str_strip. rewrite (spaces_lstrip l _ Hl).
  induction s as [|c s IH]; simpl.
  - assert (E : str_lstrip r = "").
    { clear -Hr. induction r as [|c r IH]; simpl in *; [reflexivity | ].
      apply andb_true_iff in Hr as [Hc Hs]. rewrite Hc. auto. }
    now rewrite E.
  - destruct (chr_isspace c); [exact IH | ].
    change (String c (s ++ r)) with (String c s ++ r).
    now apply str_rstrip_spaces.
Qed.

Lemma or_empty_some (s : string) : or_empty (Some s) = s.
Proof. now destruct s. Qed.

Lemma __init___well_formed (rbc ran sbc san : string) (amt : pyfloat)
    (ct : ClientType) (loc : string) (itn cid : option string) (iv : Z)
    (self : PaymentIdentikit) :
  __init__ rbc ran sbc san amt ct loc itn cid iv = Ok self ->
  well_formed self = true.
Proof.
  intros H.
  assert (Hok : is_ok (__init__ rbc ran sbc san amt ct loc itn cid iv) = true)
    by now rewrite H.
  assert (Hno : ~ (str_strip (str_upper rbc) = "" \/ str_strip ran = ""
                   \/ str_strip (str_upper sbc) = "" \/ str_strip san = ""
                   \/ str_strip loc = "" \/ float_le_zero amt = true)).
  { intros D. apply __init___raises_iff with (ct := ct) (itn := itn) (cid := cid)
                                              (iv := iv) in D. congruence. }
  apply __init___fields in H. subst self. unfold well_formed.
  cbn [receiver_bank_code receiver_account_number sender_bank_code
       sender_account_number client_location transaction_amount].
  rewrite !str_strip_trimmed by tauto.
  unfold str_strip at 1 2.
  rewrite !all_chars_rstrip by (apply all_chars_lstrip, str_upper_not_lower).
  destruct (float_le_zero amt); [tauto | reflexivity].
Qed.

(** X1: every Identikit that construction returns has its five required
    fields non-empty and free of whitespace at both ends, its two bank codes
    free of lower-case ASCII letters, and an amount for which [amount <= 0]
    is false. *)
Theorem constructed_well_formed (rbc ran sbc san : string) (amt : pyfloat)
    (ct : ClientType) (loc : string) (itn cid : option string) (iv : Z)
    (self : PaymentIdentikit) :
  __init__ rbc ran sbc san amt ct loc itn cid iv = Ok self ->
  well_formed self = true.
Proof. apply __init___well_formed. Qed.

Lemma constructed_well_formed_witness :
  well_formed (example_identikit "BANK001" (float_of_N 100) 15) = true.
Proof.
  apply (constructed_well_formed "  bank001 " "1234567890" "BANK002" "9876543210"
           (float_of_N 100) WEB_APP "US-CA-SF" None None 15).
  reflexivity.
Defined.

(** X2: construction does not see whitespace around the five required
    fields, nor whether the bank codes were upper-cased beforehand, nor
    whether an optional field is absent or empty: the result, object or
    error, is the same. *)
Theorem construction_insensitive (l1 r1 l2 r2 l3 r3 l4 r4 l5 r5 : string)
    (rbc ran sbc san : string) (amt : pyfloat) (ct : ClientType) (loc : string)
    (itn cid : option string) (iv : Z) :
  all_chars chr_isspace (l1 ++ r1 ++ l2 ++ r2 ++ l3 ++ r3 ++ l4 ++ r4 ++ l5 ++ r5)
  = true ->
  __init__ (l1 ++ rbc ++ r1) (l2 ++ ran ++ r2) (l3 ++ sbc ++ r3) (l4 ++ san ++ r4)
    amt ct (l5 ++ loc ++ r5) itn cid iv
  = __init__ rbc ran sbc san amt ct loc itn cid iv
  /\ __init__ (str_upper rbc) ran (str_upper sbc) san amt ct loc itn cid iv
     = __init__ rbc ran sbc san amt ct loc itn cid iv
  /\ __init__ rbc ran sbc san amt ct loc None None iv
     = __init__ rbc ran sbc san amt ct loc (Some "") (Some "") iv.
Proof.
  rewrite !all_chars_append, !andb_true_iff.
  intros (H1 & H2 & H3 & H4 & H5 & H6 & H7 & H8 & H9 & H10).
  split; [ | split; [ | reflexivity]].
  - unfold __init__.
    rewrite !str_upper_append.
    rewrite !str_strip_spaces by (rewrite ?str_upper_spaces; assumption).
    reflexivity.
  - unfold __init__.
    now rewrite !(str_upper_fixed (str_upper _)) by apply str_upper_not_lower.
Qed.

Lemma construction_insensitive_witness :
  __init__ ("  " ++ "bank001" ++ " ") ("" ++ "1234567890" ++ "") ("" ++ "bank002" ++ "")
    ("" ++ "9876543210" ++ "") (float_of_N 100) WEB_APP ("" ++ "US-CA-SF" ++ "")
    None None 15
  = __init__ "bank001" "1234567890" "bank002" "9876543210" (float_of_N 100)
      WEB_APP "US-CA-SF" None None 15
  /\ __init__ (str_upper "bank001") "1234567890" (str_upper "bank002") "9876543210"
       (float_of_N 100) WEB_APP "US-CA-SF" None None 15
     = __init__ "bank001" "1234567890" "bank002" "9876543210" (float_of_N 100)
         WEB_APP "US-CA-SF" None None 15
  /\ __init__ "bank001" "1234567890" "bank002" "9876543210" (float_of_N 100)
       WEB_APP "US-CA-SF" None None 15
     = __init__ "bank001" "1234567890" "bank002" "9876543210" (float_of_N 100)
         WEB_APP "US-CA-SF" (Some "") (Some "") 15.
Proof.
  apply (construction_insensitive "  " " " "" "" "" "" "" "" "" ""
           "bank001" "1234567890" "bank002" "9876543210" (float_of_N 100)
           WEB_APP "US-CA-SF" None None 15).
  reflexivity.
Defined.

(** Account numbers and the location keep their case, and inner whitespace
    stays everywhere. *)
Example account_number_case_kept :
  __init__ "BANK001" "ab 12" "BANK002" "9876543210" (float_of_N 100) WEB_APP
    "us-ca" None None 15
  = Ok (mk_identikit "BANK001" "ab 12" "BANK002" "9876543210" (float_of_N 100)
          WEB_APP "us-ca" "" "" 15).
Proof. reflexivity. Qed.

(** X3: constructing again from the fields of a constructed Identikit
    returns that Identikit: normalisation and validation change nothing the
    second time. *)
Theorem reconstruction_fixed (rbc ran sbc san : string) (amt : pyfloat)
    (ct : ClientType) (loc : string) (itn cid : option string) (iv : Z)
    (self : PaymentIdentikit) :
  __init__ rbc ran sbc san amt ct loc itn cid iv = Ok self ->
  __init__ (receiver_bank_code self) (receiver_account_number self)
    (sender_bank_code self) (sender_account_number self)
    (transaction_amount self) (client_type self) (client_location self)
    (Some (internal_transaction_narration self)) (Some (client_id self))
    (timecode_interval_minutes self)
  = Ok self.
Proof.
  intros H. apply __init___well_formed in H as W. clear H.
  destruct self as [a b c d x t l n i v].
  unfold well_formed in W.
  cbn [receiver_bank_code receiver_account_number sender_bank_code
       sender_account_number client_location transaction_amount client_type
       internal_transaction_narration client_id timecode_interval_minutes] in *.
  rewrite !andb_true_iff, negb_true_iff in W.
  destruct W as (((((((Ta & Ua) & Tb) & Tc) & Uc) & Td) & Tl) & Hx).
  unfold __init__, _validate, required_fields.
  rewrite (str_upper_fixed a Ua), (str_upper_fixed c Uc).
  rewrite (str_strip_fixed a Ta), (str_strip_fixed b Tb), (str_strip_fixed c Tc),
    (str_strip_fixed d Td), (str_strip_fixed l Tl), !or_empty_some.
  cbn [receiver_bank_code receiver_account_number sender_bank_code
       sender_account_number client_location transaction_amount check_required].
  unfold trimmed in Ta, Tb, Tc, Td, Tl.
  rewrite !andb_true_iff in Ta, Tb, Tc, Td, Tl.
  destruct Ta as [[-> _] _], Tb as [[-> _] _], Tc as [[-> _] _],
    Td as [[-> _] _], Tl as [[-> _] _].
  cbn [negb]. now rewrite Hx.
Qed.

Lemma reconstruction_fixed_witness :
  __init__ "BANK001" "1234567890" "BANK002" "9876543210" (float_of_N 100) WEB_APP
    "US-CA-SF" (Some "") (Some "") 15
  = Ok (example_identikit "BANK001" (float_of_N 100) 15).
Proof.
  apply (reconstruction_fixed "  bank001 " "1234567890" "BANK002" "9876543210"
           (float_of_N 100) WEB_APP "US-CA-SF" None None 15
           (example_identikit "BANK001" (float_of_N 100) 15)).
  reflexivity.
Defined.

(** ** The order of the checks *)


(** A blank field and a zero amount together: the field is reported. *)
Example blank_field_hides_amount :
  __init__ "BANK001" "  " "BANK002" "" (float_of_N 0) WEB_APP "US-CA-SF" None None 0
  = Raise (ValueError "receiver_account_number cannot be empty").
Proof. reflexivity. Qed.

Lemma __init___value_error (rbc ran sbc san : string) (amt : pyfloat)
    (ct : ClientType) (loc : string) (itn cid : option string) (iv : Z) :
  is_ok (__init__ rbc ran sbc san amt ct loc itn cid iv) = false ->
  exists msg, __init__ rbc ran sbc san amt ct loc itn cid iv = Raise (ValueError msg).
Proof.
  destruct (__init__ rbc ran sbc san amt ct loc itn cid iv) as [self|e] eqn:E;
    [discriminate | intros _].
  apply __init___error in E as [(name & _ & ->) | (_ & ->)]; eexists; reflexivity.
Qed.

(** The one-shot function constructs, then derives. *)
Lemma generate_payment_idempotency_key_run (registry : string -> option hash_kind)
    (rbc ran sbc san : string) (amt : pyfloat) (ct : ClientType) (loc : string)
    (itn cid : option string) (transaction_time : option datetime) (iv : Z)
    (hash_algorithm : string) (w : world) :
  generate_payment_idempotency_key registry rbc ran sbc san amt ct loc itn cid
    transaction_time iv hash_algorithm w
  = match __init__ rbc ran sbc san amt ct loc itn cid iv with
    | Ok self =>
        generate_idempotency_key registry self transaction_time hash_algorithm w
    | Raise e => (Raise e, w)
    end.
Proof.
  unfold generate_payment_idempotency_key, bind at 1, lift.
  now destruct (__init__ rbc ran sbc san amt ct loc itn cid iv).
Qed.

(** X5: the one-shot function checks in this order: validation first (its
    ValueError is raised with nothing read or hashed, even when the interval
    is zero and the algorithm unknown), then the interval (zero raises
    ZeroDivisionError even when the algorithm is unknown), then the
    algorithm (with an interval of at least one minute at a valid instant,
    an unknown name raises with nothing hashed); and whenever construction
    succeeds, the call does exactly what [generate_idempotency_key] does on
    the constructed Identikit: same outcome, same effects. *)
Theorem one_shot_order (registry : string -> option hash_kind)
    (rbc ran sbc san : string) (amt : pyfloat) (ct : ClientType) (loc : string)
    (itn cid : option string) (transaction_time : option datetime) (iv : Z)
    (hash_algorithm : string) (w : world) :
  let call :=
    generate_payment_idempotency_key registry rbc ran sbc san amt ct loc itn cid
      transaction_time iv hash_algorithm in
  let valid := is_ok (__init__ rbc ran sbc san amt ct loc itn cid iv) in
  (valid = false ->
   exists msg, __init__ rbc ran sbc san amt ct loc itn cid iv = Raise (ValueError msg)
               /\ call w = (Raise (ValueError msg), w))
  /\ (valid = true -> iv = 0%Z -> call w = (Raise ZeroDivisionError, w))
  /\ (valid = true -> (1 <= iv)%Z ->
      valid_datetime (instant_of transaction_time w) = true ->
      registry hash_algorithm = None ->
      call w = (Raise (unsupported_algorithm hash_algorithm), w))
  /\ (forall self : PaymentIdentikit,
        __init__ rbc ran sbc san amt ct loc itn cid iv = Ok self ->
        call w
        = generate_idempotency_key registry self transaction_time hash_algorithm w).
Proof.
  intros call valid. subst call valid.
  rewrite generate_payment_idempotency_key_run.
  split; [ | split; [ | split]].
  - intros Hv. destruct (__init___value_error _ _ _ _ _ _ _ _ _ _ Hv) as [msg E].
    exists msg. rewrite E. split; reflexivity.
  - intros Hv Hiv.
    destruct (__init__ rbc ran sbc san amt ct loc itn cid iv) as [self|e] eqn:E;
      [ | discriminate].
    apply __init___fields in E. rewrite generate_idempotency_key_run.
    unfold timecode_of. rewrite E. cbn [timecode_interval_minutes].
    rewrite Hiv. reflexivity.
  - intros Hv Hiv Ht Hreg.
    destruct (__init__ rbc ran sbc san amt ct loc itn cid iv) as [self|e] eqn:E;
      [ | discriminate].
    pose proof (__init___fields _ _ _ _ _ _ _ _ _ _ _ E) as F.
    assert (Hi : (1 <= timecode_interval_minutes self)%Z) by (rewrite F; exact Hiv).
    pose proof (generate_timecode_spec self transaction_time w Hi Ht) as G.
    cbv zeta in G. rewrite generate_timecode_run in G.
    rewrite generate_idempotency_key_run.
    injection G as G. rewrite G. cbv zeta. now rewrite Hreg.
  - intros self E. now rewrite E.
Qed.

(** Everything wrong at once: the blank field wins. *)
Example one_shot_all_wrong :
  generate_payment_idempotency_key hashlib_sha256 " " "1234567890" "BANK002"
    "9876543210" (float_of_N 0) WEB_APP "US-CA-SF" None None None 0 "crc32" morning
  = (Raise (ValueError "receiver_bank_code cannot be empty"), morning).
Proof. reflexivity. Qed.

Lemma one_shot_order_witness :
  generate_payment_idempotency_key hashlib_sha256 "BANK001" "1234567890" "BANK002"
    "9876543210" (float_of_N 100) WEB_APP "US-CA-SF" None None None 0 "crc32" morning
  = (Raise ZeroDivisionError, morning).
Proof.
  apply (proj1 (proj2 (one_shot_order hashlib_sha256 "BANK001" "1234567890" "BANK002"
                         "9876543210" (float_of_N 100) WEB_APP "US-CA-SF" None None
                         None 0 "crc32" morning))); reflexivity.
Defined.

(** ** The shape of a key *)

Lemma sha256_digest_length (msg : list byte) :
  List.length (SHA256.digest msg) = 32%nat.
Proof. unfold SHA256.digest. rewrite length_map. reflexivity. Qed.

(** X6: with an algorithm whose digests all have [n] bytes, every key that a
    call returns is [a ++ "." ++ b] where [a] and [b] are each [2 * n]
    lower-case hexadecimal digits, [4 * n + 1] characters in all, [a] being
    what precedes the first full stop and [b] what follows it; and a key is
    returned when the text fields are ASCII, the interval is at least one
    minute and the instant is valid.  SHA-256 has [n = 32]: its keys have
    129 characters. *)
Theorem key_format (registry : string -> option hash_kind)
    (self : PaymentIdentikit) (transaction_time : option datetime)
    (hash_algorithm : string) (H : list byte -> list byte) (n : nat) (w : world) :
  registry hash_algorithm = Some (FixedDigest H) ->
  (forall msg, List.length (H msg) = n) ->
  let call :=
    generate_idempotency_key registry self transaction_time hash_algorithm in
  (forall key : string,
      outcome call w = Ok key ->
      exists a b : string,
        key = a ++ "." ++ b
        /\ String.length a = (2 * n)%nat /\ String.length b = (2 * n)%nat
        /\ String.length key = (4 * n + 1)%nat
        /\ all_chars is_hex a = true /\ all_chars is_hex b = true
        /\ receiver_half key = a /\ sender_half key = b)
  /\ (ascii_text self = true ->
      (1 <= timecode_interval_minutes self)%Z ->
      valid_datetime (instant_of transaction_time w) = true ->
      exists key : string, outcome call w = Ok key).
Proof.
  intros Hreg Hn call. subst call. rewrite key_outcome, Hreg. split.
  - intros key K.
    destruct (outcome (generate_timecode self transaction_time) w) as [tc|e];
      [ | discriminate].
    assert (Inj : forall a b : string, Ok a = Ok b -> a = b)
      by (intros a b [= E]; exact E).
    apply Inj in K. subst key.
    eexists. eexists. split; [reflexivity | ].
    change ("." ++ ?x) with (String "." x).
    rewrite receiver_half_append, sender_half_append by apply hexlify_no_dot.
    rewrite !length_append. cbn [String.length].
    rewrite !hexlify_length, !Hn, !hexlify_hex. repeat split; lia.
  - intros _ Hi Ht.
    destruct (timecode_positive_interval self transaction_time w Hi Ht) as [tc T].
    rewrite T. eexists. reflexivity.
Qed.

Lemma key_format_witness :
  exists key a b : string,
    outcome (generate_idempotency_key hashlib_sha256
               (example_identikit "BANK001" (float_of_N 100) 15) None "sha256") morning
    = Ok key
    /\ key = a ++ "." ++ b
    /\ String.length a = (2 * 32)%nat /\ String.length b = (2 * 32)%nat
    /\ String.length key = (4 * 32 + 1)%nat
    /\ all_chars is_hex a = true /\ all_chars is_hex b = true
    /\ receiver_half key = a /\ sender_half key = b.
Proof.
  destruct (key_format hashlib_sha256 (example_identikit "BANK001" (float_of_N 100) 15)
              None "sha256" SHA256.digest 32 morning eq_refl sha256_digest_length)
    as [F P].
  destruct P as [key K]; [reflexivity | simpl; lia | reflexivity | ].
  destruct (F key K) as (a & b & R).
  exists key, a, b. split; [exact K | exact R].
Defined.

(** X7: two returned keys (same algorithm) are equal exactly when the two
    receiver digests are equal and the two sender digests are equal: joining
    the hexadecimal halves with "." loses nothing. *)
Theorem key_equality (registry : string -> option hash_kind)
    (self1 self2 : PaymentIdentikit) (time1 time2 : option datetime)
    (hash_algorithm : string) (H : list byte -> list byte) (w1 w2 : world)
    (tc1 tc2 key1 key2 : string) :
  registry hash_algorithm = Some (FixedDigest H) ->
  outcome (generate_timecode self1 time1) w1 = Ok tc1 ->
  outcome (generate_timecode self2 time2) w2 = Ok tc2 ->
  outcome (generate_idempotency_key registry self1 time1 hash_algorithm) w1 = Ok key1 ->
  outcome (generate_idempotency_key registry self2 time2 hash_algorithm) w2 = Ok key2 ->
  key1 = key2
  <-> H (encode_utf8 (receiver_string self1)) = H (encode_utf8 (receiver_string self2))
      /\ H (encode_utf8 (sender_string self1 tc1))
         = H (encode_utf8 (sender_string self2 tc2)).
Proof.
  intros Hreg T1 T2. rewrite !key_outcome, T1, T2, Hreg.
  intros [= <-] [= <-]. split.
  - intros E. split; apply hexlify_inj.
    + apply (f_equal receiver_half) in E.
      now rewrite !receiver_half_append in E by apply hexlify_no_dot.
    + apply (f_equal sender_half) in E.
      now rewrite !sender_half_append in E by apply hexlify_no_dot.
  - intros [-> ->]. reflexivity.
Qed.

Lemma key_equality_witness :
  let self := example_identikit "BANK001" (float_of_N 100) 15 in
  exists key1 key2,
    outcome (generate_idempotency_key hashlib_sha256 self (Some (at_14 0)) "sha256")
      morning = Ok key1
    /\ outcome (generate_idempotency_key hashlib_sha256 self (Some (at_14 14)) "sha256")
         morning = Ok key2
    /\ (key1 = key2
        <-> SHA256.digest (encode_utf8 (receiver_string self))
            = SHA256.digest (encode_utf8 (receiver_string self))
            /\ SHA256.digest (encode_utf8 (sender_string self "202401151400"))
               = SHA256.digest (encode_utf8 (sender_string self "202401151400"))).
Proof.
  intros self. eexists. eexists. split; [ | split].
  - vm_compute. reflexivity.
  - vm_compute. reflexivity.
  - apply (key_equality hashlib_sha256 self self (Some (at_14 0)) (Some (at_14 14))
             "sha256" SHA256.digest morning morning "202401151400" "202401151400").
    + reflexivity.
    + reflexivity.
    + reflexivity.
    + vm_compute. reflexivity.
    + vm_compute. reflexivity.
Defined.

(** ** Effects *)

(** X8: with an extendable-output algorithm, whose [hexdigest()] needs a
    length, no call returns a key, and when a call ends the sender string
    has not been hashed: either nothing was hashed, or the receiver string
    alone was fed to the first hash object.  With ASCII text fields, an
    interval of at least one minute and a valid instant, the call raises
    TypeError after the receiver string has been fed. *)
Theorem xof_algorithm_raises (registry : string -> option hash_kind)
    (self : PaymentIdentikit) (transaction_time : option datetime)
    (hash_algorithm : string) (g : nat -> list byte -> list byte) (w : world) :
  registry hash_algorithm = Some (Xof g) ->
  let call :=
    generate_idempotency_key registry self transaction_time hash_algorithm in
  (forall key : string, outcome call w <> Ok key)
  /\ (after call w = w
      \/ after call w
         = hashed w hash_algorithm [encode_utf8 (receiver_string self)])
  /\ (ascii_text self = true ->
      (1 <= timecode_interval_minutes self)%Z ->
      valid_datetime (instant_of transaction_time w) = true ->
      call w
      = (Raise (TypeError "hexdigest() missing required argument 'length' (pos 1)"),
         hashed w hash_algorithm [encode_utf8 (receiver_string self)])).
Proof.
  intros Hreg call. subst call. unfold outcome, after.
  rewrite generate_idempotency_key_run, Hreg. split; [ | split].
  - intros key.
    destruct (timecode_of self (instant_of transaction_time w)); discriminate.
  - destruct (timecode_of self (instant_of transaction_time w));
      [right | left]; reflexivity.
  - intros _ Hi Ht.
    pose proof (generate_timecode_spec self transaction_time w Hi Ht) as G.
    cbv zeta in G. rewrite generate_timecode_run in G. injection G as G.
    now rewrite G.
Qed.

Lemma xof_algorithm_raises_witness :
  generate_idempotency_key (hashlib_with_xof no_output)
    (example_identikit "BANK001" (float_of_N 100) 15) (Some instant_14_30)
    "shake_128" morning
  = (Raise (TypeError "hexdigest() missing required argument 'length' (pos 1)"),
     hashed morning "shake_128" [encode_utf8 "BANK001|1234567890"]).
Proof.
  apply (proj2 (proj2 (xof_algorithm_raises (hashlib_with_xof no_output)
                         (example_identikit "BANK001" (float_of_N 100) 15)
                         (Some instant_14_30) "shake_128" no_output morning
                         eq_refl))).
  - reflexivity.
  - simpl; lia.
  - reflexivity.
Defined.

(** X14: a call that returns a key has left the clock as it was and has fed
    exactly two hash objects of the requested algorithm: the UTF-8 bytes of
    the receiver string, then those of the sender string; computing the
    timecode has changed nothing. *)
Theorem key_derivation_effects (registry : string -> option hash_kind)
    (self : PaymentIdentikit) (transaction_time : option datetime)
    (hash_algorithm : string) (w : world) (key : string) :
  outcome (generate_idempotency_key registry self transaction_time hash_algorithm) w
  = Ok key ->
  exists timecode,
    generate_timecode self transaction_time w = (Ok timecode, w)
    /\ utc_clock (after (generate_idempotency_key registry self transaction_time
                           hash_algorithm) w) = utc_clock w
    /\ hash_log (after (generate_idempotency_key registry self transaction_time
                          hash_algorithm) w)
       = (hash_log w
          ++ [ (hash_algorithm, encode_utf8 (receiver_string self));
               (hash_algorithm, encode_utf8 (sender_string self timecode)) ])%list.
Proof.
  unfold outcome, after.
  rewrite generate_idempotency_key_run, generate_timecode_run.
  destruct (timecode_of self (instant_of transaction_time w)) as [tc|e];
    [ | discriminate].
  cbv zeta.
  destruct (registry hash_algorithm) as [[f|g]|]; try discriminate.
  intros _. exists tc. split; [reflexivity | split; reflexivity].
Qed.

Lemma key_derivation_effects_witness :
  exists timecode,
    generate_timecode (example_identikit "BANK001" (float_of_N 100) 15)
      (Some instant_14_30) morning = (Ok timecode, morning)
    /\ utc_clock (after (generate_idempotency_key hashlib_sha256
                           (example_identikit "BANK001" (float_of_N 100) 15)
                           (Some instant_14_30) "sha256") morning)
       = utc_clock morning
    /\ hash_log (after (generate_idempotency_key hashlib_sha256
                          (example_identikit "BANK001" (float_of_N 100) 15)
                          (Some instant_14_30) "sha256") morning)
       = (hash_log morning
          ++ [ ("sha256", encode_utf8
                  (receiver_string (example_identikit "BANK001" (float_of_N 100) 15)));
               ("sha256", encode_utf8
                  (sender_string (example_identikit "BANK001" (float_of_N 100) 15)
                     timecode)) ])%list.
Proof.
  refine (key_derivation_effects hashlib_sha256
            (example_identikit "BANK001" (float_of_N 100) 15) (Some instant_14_30)
            "sha256" morning _ _).
  vm_compute. reflexivity.
Defined.

(** ** Windows *)

(** X9: with an interval of at least one minute, two instants of the same
    year, month, day and hour whose minutes lie in the same band give the
    same outcome of key derivation, a key or an error, whatever their seconds
    and microseconds, the algorithm and the worlds they run in. *)
Theorem same_window_same_key (registry : string -> option hash_kind)
    (self : PaymentIdentikit) (t1 t2 : datetime) (hash_algorithm : string)
    (w1 w2 : world) (band : Z) :
  (1 <= timecode_interval_minutes self)%Z ->
  year t1 = year t2 -> month t1 = month t2 -> day t1 = day t2 -> hour t1 = hour t2 ->
  (band * timecode_interval_minutes self <= minute t1
   < (band + 1) * timecode_interval_minutes self)%Z ->
  (band * timecode_interval_minutes self <= minute t2
   < (band + 1) * timecode_interval_minutes self)%Z ->
  outcome (generate_idempotency_key registry self (Some t1) hash_algorithm) w1
  = outcome (generate_idempotency_key registry self (Some t2) hash_algorithm) w2.
Proof.
  intros Hi Hy Hm Hd Hh H1 H2. rewrite !key_outcome.
  now rewrite (same_band_same_timecode self t1 t2 w1 w2 band Hi Hy Hm Hd Hh H1 H2).
Qed.

Lemma same_window_same_key_witness :
  outcome (generate_idempotency_key hashlib_sha256
             (example_identikit "BANK001" (float_of_N 100) 15)
             (Some (mk_datetime 2024 1 15 14 0 0 0)) "sha256") morning
  = outcome (generate_idempotency_key hashlib_sha256
               (example_identikit "BANK001" (float_of_N 100) 15)
               (Some (mk_datetime 2024 1 15 14 14 59 999999)) "sha256") morning.
Proof.
  apply (same_window_same_key hashlib_sha256
           (example_identikit "BANK001" (float_of_N 100) 15)
           (mk_datetime 2024 1 15 14 0 0 0) (mk_datetime 2024 1 15 14 14 59 999999)
           "sha256" morning morning 0%Z); try reflexivity; simpl; lia.
Defined.
(** X10: an interval of sixty minutes or more never widens the window beyond
    the hour: at a valid instant the bucket is always 00, so the timecode is
    the year, month, day and hour as [strftime] writes them, followed by
    "00". *)
Theorem hour_is_widest_window (self : PaymentIdentikit)
    (transaction_time : option datetime) (w : world) :
  (60 <= timecode_interval_minutes self)%Z ->
  valid_datetime (instant_of transaction_time w) = true ->
  let t := instant_of transaction_time w in
  outcome (generate_timecode self transaction_time) w
  = Ok (strftime "%Y%m%d%H" t ++ "00")
  /\ strftime "%Y%m%d%H" t
     = dec (Z.to_N (year t)) ++ two_digits (month t) ++ two_digits (day t)
       ++ two_digits (hour t).
Proof.
  intros Hi Ht t. unfold outcome.
  rewrite generate_timecode_spec by (lia || exact Ht).
  pose proof (valid_datetime_ranges t Ht) as R.
  fold t. rewrite (strftime_date_hour t Ht).
  rewrite (Z.div_small (minute t) (timecode_interval_minutes self)) by lia.
  split; reflexivity.
Qed.

Lemma hour_is_widest_window_witness :
  outcome (generate_timecode (example_identikit "BANK001" (float_of_N 100) 120)
             (Some (at_14 59))) morning
  = Ok "202401151400"
  /\ "2024011514" = "2024" ++ "01" ++ "15" ++ "14".
Proof.
  refine (hour_is_widest_window (example_identikit "BANK001" (float_of_N 100) 120)
            (Some (at_14 59)) morning _ _).
  - simpl; lia.
  - reflexivity.
Defined.

(** X11: a negative interval rounds the minute up, not down: at a valid
    instant the bucket is the least multiple of the interval's size that is
    at least the minute.  It is written on as many digits as it has, after
    the year, month, day and hour; a bucket of more than 4300 digits cannot
    be written, and the call raises ValueError. *)
Theorem negative_interval_rounds_up (self : PaymentIdentikit)
    (transaction_time : option datetime) (w : world) :
  (timecode_interval_minutes self < 0)%Z ->
  valid_datetime (instant_of transaction_time w) = true ->
  let t := instant_of transaction_time w in
  exists bucket : Z,
    (minute t <= bucket < minute t - timecode_interval_minutes self)%Z
    /\ (bucket mod timecode_interval_minutes self = 0)%Z
    /\ outcome (generate_timecode self transaction_time) w
       = if (int_str_limit <=? bucket)%Z then Raise int_too_large
         else Ok (strftime "%Y%m%d%H" t ++ format_0d 2 bucket).
Proof.
  intros Hi Ht t.
  exists (minute t / timecode_interval_minutes self * timecode_interval_minutes self)%Z.
  pose proof (Z.div_mod (minute t) (timecode_interval_minutes self) ltac:(lia)) as Hdm.
  pose proof (Z.mod_neg_bound (minute t) (timecode_interval_minutes self) Hi) as Hr.
  pose proof (valid_datetime_ranges t Ht) as R.
  split; [lia | split; [apply Z.mod_mul; lia | ]].
  unfold outcome. rewrite generate_timecode_run. fold t. unfold timecode_of.
  replace (timecode_interval_minutes self =? 0)%Z with false
    by (symmetry; apply Z.eqb_neq; lia).
  unfold int_format_0d. rewrite Z.abs_eq by lia.
  destruct (int_str_limit <=? _)%Z; reflexivity.
Qed.

Lemma negative_interval_rounds_up_witness :
  exists bucket : Z,
    (59 <= bucket < 59 - -7)%Z /\ (bucket mod -7 = 0)%Z
    /\ outcome (generate_timecode (example_identikit "BANK001" (float_of_N 100) (-7))
                  (Some (at_14 59))) morning
       = if (int_str_limit <=? bucket)%Z then Raise int_too_large
         else Ok (strftime "%Y%m%d%H" (at_14 59) ++ format_0d 2 bucket).
Proof.
  refine (negative_interval_rounds_up
            (example_identikit "BANK001" (float_of_N 100) (-7)) (Some (at_14 59))
            morning _ _).
  - simpl; lia.
  - reflexivity.
Defined.

(** The bucket can pass 59, and two digits. *)
Example negative_interval_buckets :
  map (fun iv => outcome (generate_timecode
                            (example_identikit "BANK001" (float_of_N 100) iv)
                            (Some (at_14 59))) morning) [-7; -15; -100]%Z
  = [Ok "202401151463"; Ok "202401151460"; Ok "2024011514100"].
Proof. reflexivity. Qed.

(** An interval too large to be written. *)
Example interval_beyond_the_limit :
  outcome (generate_timecode
             (example_identikit "BANK001" (float_of_N 100) (- int_str_limit))
             (Some (at_14 59))) morning
  = Raise int_too_large.
Proof. vm_compute. reflexivity. Qed.

Lemma undec_dec (n : N) : undec (dec n) = n.
Proof.
  unfold undec, dec. rewrite NilZero.usu.
  - apply DecimalN.Unsigned.of_to.
  - destruct n; simpl; [discriminate | apply DecimalPos.Unsigned.to_uint_nonnil].
Qed.

Lemma dec_inj (a b : N) : dec a = dec b -> a = b.
Proof. intros E. rewrite <- (undec_dec a), <- (undec_dec b). now rewrite E. Qed.

(** Two strings with tails of the same length are equal part by part. *)
Lemma append_same_length (a b s s' : string) :
  String.length a = String.length b -> a ++ s = b ++ s' -> a = b /\ s = s'.
Proof.
  revert b. induction a as [|c a IH]; intros [|d b]; simpl; try discriminate.
  - intros _ E. split; [reflexivity | exact E].
  - intros L E. injection L as L. injection E as Ec E.
    destruct (IH b L E) as [-> ->]. now rewrite Ec.
Qed.

Lemma append_split_tail (a b s s' : string) :
  String.length s = String.length s' -> a ++ s = b ++ s' -> a = b /\ s = s'.
Proof.
  intros L E. apply append_same_length; [ | exact E].
  apply (f_equal String.length) in E. rewrite !length_append in E. lia.
Qed.

Lemma two_digits_split (a b : Z) (s s' : string) :
  two_digits a ++ s = two_digits b ++ s' -> two_digits a = two_digits b /\ s = s'.
Proof.
  unfold two_digits. cbn [append]. intros E. injection E as E1 E2 E3.
  now rewrite E1, E2.
Qed.

(** X12: with an interval of at least one minute, the timecode identifies the
    window: two valid instants with the same timecode have the same year,
    month, day and hour, and their minutes lie in the same band. *)
Theorem timecode_identifies_window (self : PaymentIdentikit) (t1 t2 : datetime)
    (w1 w2 : world) :
  (1 <= timecode_interval_minutes self)%Z ->
  valid_datetime t1 = true -> valid_datetime t2 = true ->
  outcome (generate_timecode self (Some t1)) w1
  = outcome (generate_timecode self (Some t2)) w2 ->
  year t1 = year t2 /\ month t1 = month t2 /\ day t1 = day t2 /\ hour t1 = hour t2
  /\ (minute t1 / timecode_interval_minutes self
      = minute t2 / timecode_interval_minutes self)%Z.
Proof.
  intros Hi V1 V2. unfold outcome.
  rewrite (generate_timecode_spec self (Some t1) w1 Hi V1).
  rewrite (generate_timecode_spec self (Some t2) w2 Hi V2).
  cbn [fst instant_of]. intros E.
  assert (Inj : forall a b : string, Ok a = Ok b -> a = b)
    by (intros a b [= ->]; reflexivity).
  apply Inj in E. clear Inj. unfold date_hour in E.
  rewrite !append_assoc in E.
  apply valid_datetime_ranges in V1, V2.
  pose proof (bucket_bounds (minute t1) (timecode_interval_minutes self)
                ltac:(lia) Hi) as B1.
  pose proof (bucket_bounds (minute t2) (timecode_interval_minutes self)
                ltac:(lia) Hi) as B2.
  apply append_split_tail in E; [ | reflexivity].
  destruct E as [Ey E].
  apply two_digits_split in E as [Em E].
  apply two_digits_split in E as [Ed E].
  apply two_digits_split in E as [Eh Eb].
  apply dec_inj in Ey.
  apply two_digits_inj in Em; [ | lia | lia].
  apply two_digits_inj in Ed; [ | lia | lia].
  apply two_digits_inj in Eh; [ | lia | lia].
  apply two_digits_inj in Eb; [ | lia | lia].
  repeat split; try assumption; try lia.
  apply Z.mul_cancel_r in Eb; [exact Eb | lia].
Qed.

Lemma timecode_identifies_window_witness :
  year (at_14 3) = year (at_14 11) /\ month (at_14 3) = month (at_14 11)
  /\ day (at_14 3) = day (at_14 11) /\ hour (at_14 3) = hour (at_14 11)
  /\ (minute (at_14 3) / 15 = minute (at_14 11) / 15)%Z.
Proof.
  apply (timecode_identifies_window (example_identikit "BANK001" (float_of_N 100) 15)
           (at_14 3) (at_14 11) morning morning); try reflexivity.
  simpl; lia.
Defined.

(** ** Fields that contain the separator *)

(** X13: the fields are joined without escaping the separator, so moving
    "|token" from the end of the narration to the front of the client id
    (token being the client type's) leaves the sender string unchanged: two
    validly constructed Identikits with different narrations and client ids
    have the same key at every instant, for every algorithm. *)
Theorem separator_collision (registry : string -> option hash_kind)
    (rbc ran sbc san : string) (amt : pyfloat) (ct : ClientType) (loc : string)
    (a b : string) (iv : Z) (self1 self2 : PaymentIdentikit) :
  __init__ rbc ran sbc san amt ct loc
    (Some (a ++ "|" ++ ClientType_value ct)) (Some b) iv = Ok self1 ->
  __init__ rbc ran sbc san amt ct loc
    (Some a) (Some (ClientType_value ct ++ "|" ++ b)) iv = Ok self2 ->
  internal_transaction_narration self1 <> internal_transaction_narration self2
  /\ client_id self1 <> client_id self2
  /\ (forall timecode, sender_string self1 timecode = sender_string self2 timecode)
  /\ (forall (transaction_time : option datetime) (hash_algorithm : string)
             (w : world),
        outcome (generate_idempotency_key registry self1 transaction_time
                   hash_algorithm) w
        = outcome (generate_idempotency_key registry self2 transaction_time
                     hash_algorithm) w).
Proof.
  intros I1 I2. apply __init___fields in I1, I2. subst self1 self2.
  assert (L : forall x y : string, x ++ "|" ++ y <> x /\ x <> y ++ "|" ++ x).
  { intros x y. split; intros E; apply (f_equal String.length) in E;
      rewrite !length_append in E; simpl in E; lia. }
  assert (S : forall timecode,
             sender_string
               (mk_identikit (str_strip (str_upper rbc)) (str_strip ran)
                  (str_strip (str_upper sbc)) (str_strip san) amt ct (str_strip loc)
                  (or_empty (Some (a ++ "|" ++ ClientType_value ct)))
                  (or_empty (Some b)) iv) timecode
             = sender_string
                 (mk_identikit (str_strip (str_upper rbc)) (str_strip ran)
                    (str_strip (str_upper sbc)) (str_strip san) amt ct (str_strip loc)
                    (or_empty (Some a))
                    (or_empty (Some (ClientType_value ct ++ "|" ++ b))) iv) timecode).
  { intros timecode. unfold sender_string. rewrite !or_empty_some.
    cbn [sender_bank_code sender_account_number transaction_amount client_type
         client_location internal_transaction_narration client_id str_join
         String.concat].
    do 4 (f_equal; apply (f_equal (String "|"))).
    change (String "|" ?x) with ("|" ++ x).
    now rewrite !append_assoc. }
  split; [ | split; [ | split; [exact S | ]]];
    try (cbn [internal_transaction_narration client_id]; rewrite !or_empty_some;
         apply L).
  intros transaction_time hash_algorithm w.
  rewrite !key_outcome. unfold outcome. rewrite !generate_timecode_run.
  cbn [fst]. unfold timecode_of, receiver_string.
  cbn [timecode_interval_minutes receiver_bank_code receiver_account_number].
  destruct (iv =? 0)%Z; [reflexivity | ].
  destruct (int_format_0d 2 _); [ | reflexivity].
  now rewrite S.
Qed.

Lemma separator_collision_witness :
  let self1 :=
    mk_identikit "BANK001" "1234567890" "BANK002" "9876543210" (float_of_N 100)
      WEB_APP "US-CA-SF" "rent|web_app" "dev1" 15 in
  let self2 :=
    mk_identikit "BANK001" "1234567890" "BANK002" "9876543210" (float_of_N 100)
      WEB_APP "US-CA-SF" "rent" "web_app|dev1" 15 in
  internal_transaction_narration self1 <> internal_transaction_narration self2
  /\ client_id self1 <> client_id self2
  /\ (forall timecode, sender_string self1 timecode = sender_string self2 timecode)
  /\ (forall (transaction_time : option datetime) (hash_algorithm : string)
             (w : world),
        outcome (generate_idempotency_key hashlib_sha256 self1 transaction_time
                   hash_algorithm) w
        = outcome (generate_idempotency_key hashlib_sha256 self2 transaction_time
                     hash_algorithm) w).
Proof.
  intros self1 self2.
  apply (separator_collision hashlib_sha256 "BANK001" "1234567890" "BANK002"
           "9876543210" (float_of_N 100) WEB_APP "US-CA-SF" "rent" "dev1" 15
           self1 self2); reflexivity.
Defined.

(** ** Amounts below half a cent *)

(** X15: a validly constructed Identikit whose finite amount lies strictly
    within half a cent of zero has a positive amount that the key
    nevertheless carries as "0.00". *)
Theorem tiny_amount_written_zero (rbc ran sbc san : string) (m : N) (e : Z)
    (ct : ClientType) (loc : string) (itn cid : option string) (iv : Z)
    (self : PaymentIdentikit) :
  __init__ rbc ran sbc san (Ffinite false m e) ct loc itn cid iv = Ok self ->
  within_half_cent m e 0 ->
  float_gt_zero (transaction_amount self) = true
  /\ format_2f (transaction_amount self) = "0.00"
  /\ forall timecode,
      sender_string self timecode
      = sender_bank_code self ++ "|" ++ sender_account_number self ++ "|"
        ++ timecode ++ "|" ++ "0.00" ++ "|" ++ internal_transaction_narration self
        ++ "|" ++ ClientType_value (client_type self) ++ "|" ++ client_id self
        ++ "|" ++ client_location self.
Proof.
  intros I Hc. apply __init___well_formed in I as W.
  apply __init___fields in I. subst self.
  unfold well_formed in W. rewrite !andb_true_iff, negb_true_iff in W.
  destruct W as [_ Hle]. cbn [transaction_amount] in *.
  assert (F : format_2f (Ffinite false m e) = "0.00").
  { unfold format_2f. now rewrite (round_cents_within m e 0 Hc). }
  split; [ | split; [exact F | ]].
  - rewrite float_le_zero_gt_zero in Hle by discriminate.
    now apply negb_false_iff in Hle.
  - intros timecode. unfold sender_string. cbn [transaction_amount]. now rewrite F.
Qed.

(** The double nearest to 0.001. *)
Lemma tiny_amount_written_zero_witness :
  let self := example_identikit "BANK001" (Ffinite false 1152921504606847 (-60)) 15 in
  float_gt_zero (transaction_amount self) = true
  /\ format_2f (transaction_amount self) = "0.00"
  /\ forall timecode,
      sender_string self timecode
      = sender_bank_code self ++ "|" ++ sender_account_number self ++ "|"
        ++ timecode ++ "|" ++ "0.00" ++ "|" ++ internal_transaction_narration self
        ++ "|" ++ ClientType_value (client_type self) ++ "|" ++ client_id self
        ++ "|" ++ client_location self.
Proof.
  intros self.
  apply (tiny_amount_written_zero "BANK001" "1234567890" "BANK002" "9876543210"
           1152921504606847 (-60) WEB_APP "US-CA-SF" None None 15 self).
  - reflexivity.
  - unfold within_half_cent. vm_compute. reflexivity.
Defined.
